(** * Interrupt-driven monitor: time engine and query handler

    A shallow embedding of [systime.c] and [query_handler.c].

    Conventions.
    - A C unsigned integer of width [w] is a [Z] in [[0, 2^w)]; every
      assignment to such an object is written with its wrap-around
      ([u8], [u16], [u32]).  Operands narrower than [int] are promoted
      before arithmetic, so sums and products are computed in [Z] and
      wrapped when stored.
    - The file-scope objects [time] (systime.c) and [query]
      (query_handler.c) are threaded explicitly as state.
    - A function that indexes an array returns a [result]: [Fault] stands
      for an access outside the array, [Blocked] for a wait on the receive
      buffer that the pending input cannot satisfy. *)

From Stdlib Require Import ZArith Lia Bool List String Ascii DecimalString.
From stdpp Require Import base tactics option list strings.

Local Open Scope Z_scope.

(** ** Results of fallible code *)

Inductive result (A : Type) : Type :=
  | Ok (a : A)
  | Fault
  | Blocked.
Arguments Ok {A} a.
Arguments Fault {A}.
Arguments Blocked {A}.

Global Instance result_bind : MBind result := fun A B k m =>
  match m with
  | Ok a => k a
  | Fault => Fault
  | Blocked => Blocked
  end.

(** Array read [a[i]]: outside the array there is no defined value. *)
Definition index {A : Type} (a : list A) (i : Z) : result A :=
  if (0 <=? i) && (i <? Z.of_nat (length a))
  then match a !! Z.to_nat i with Some x => Ok x | None => Fault end
  else Fault.

(** ** Fixed-width unsigned integers *)

Definition u8 (z : Z) : Z := z mod 2 ^ 8.
Definition u16 (z : Z) : Z := z mod 2 ^ 16.
Definition u32 (z : Z) : Z := z mod 2 ^ 32.

Definition is_u8 (z : Z) : Prop := 0 <= z < 2 ^ 8.

(** ** systime.h *)

Record date_t : Type := mk_date {
  year : Z;   (* uint16_t *)
  month : Z;  (* uint8_t, January is 1 *)
  day : Z     (* uint8_t *)
}.

Record clock_t : Type := mk_clock {
  hour : Z;   (* uint8_t *)
  min : Z;    (* uint8_t *)
  sec : Z;    (* uint8_t *)
  t_sec : Z   (* uint8_t *)
}.

Definition clock_wf (c : clock_t) : Prop :=
  is_u8 (hour c) /\ is_u8 (min c) /\ is_u8 (sec c) /\ is_u8 (t_sec c).

Definition TSEC_IN_SEC : Z := 10.
Definition SEC_IN_MIN : Z := 60.
Definition MIN_IN_HOUR : Z := 60.
Definition HOUR_IN_DAY : Z := 24.
Definition TSEC_IN_MIN : Z := TSEC_IN_SEC * SEC_IN_MIN.
Definition TSEC_IN_HOUR : Z := TSEC_IN_MIN * MIN_IN_HOUR.
Definition TSEC_IN_DAY : Z := TSEC_IN_HOUR * HOUR_IN_DAY.
Definition MONTH_IN_YEAR : Z := 12.

Definition IS_LEAP_YR (yr : Z) : bool :=
  (yr mod 4 =? 0) && ((yr mod 400 =? 0) || negb (yr mod 100 =? 0)).

(** The callbacks that the program registers with the systick driver. *)
Inductive callback : Type :=
  | cb_systime_IncDate
  | cb_Alarm.

(** Modelled from the spec: [systick.h] (the tick counter driver) is not
    among the sources.  Section 6 describes what systime consumes from it: a
    periodic-fire rate, a counter value with an optional comparator that
    invokes a callback at a configured threshold, and a one-shot countdown
    with its own enable flag, target value and callback.  The field names
    are those that [systime.c] writes. *)
Record counter_t : Type := mk_counter {
  counter_value : Z;                 (* counter.value, uint32_t *)
  cmp_en : bool;                     (* counter.cmp_en *)
  cmp : Z;                           (* counter.cmp *)
  counter_cb : option callback       (* counter.counter_cb *)
}.

Record countdown_t : Type := mk_countdown {
  en : bool;                         (* countdown.en *)
  countdown_value : Z;               (* countdown.value, uint32_t *)
  countdown_cb : option callback     (* countdown.countdown_cb *)
}.

Record systick_descriptor_t : Type := mk_systick {
  tick_rate : Z;
  counter : counter_t;
  countdown : countdown_t
}.

Record systime_t : Type := mk_systime {
  date : date_t;
  systick : systick_descriptor_t
}.

(** ** systime.c *)

Definition MONTH_DAYS : list (list Z) :=
  [ [31; 28; 31; 30; 31; 30; 31; 31; 30; 31; 30; 31];
    [31; 29; 31; 30; 31; 30; 31; 31; 30; 31; 30; 31] ].

(** [MONTH_DAYS[IS_LEAP_YR(year)][month]]; [month] is 0-based here. *)
Definition DaysInMonth (month : Z) (year : Z) : result Z :=
  row ← index MONTH_DAYS (Z.b2z (IS_LEAP_YR year));
  index row month.

Definition systime_ConvertClock (clock : clock_t) : Z :=
  u32 (t_sec clock +
       sec clock * TSEC_IN_SEC +
       min clock * TSEC_IN_MIN +
       hour clock * TSEC_IN_HOUR).

Definition systime_ConvertTickCounter (t_count : Z) : clock_t :=
  let r_hour := u8 (t_count / TSEC_IN_HOUR) in
  let t_count := u32 (t_count - TSEC_IN_HOUR * r_hour) in
  let r_min := u8 (t_count / TSEC_IN_MIN) in
  let t_count := u32 (t_count - TSEC_IN_MIN * r_min) in
  let r_sec := u8 (t_count / TSEC_IN_SEC) in
  let t_count := u32 (t_count - TSEC_IN_SEC * r_sec) in
  let r_t_sec := u8 t_count in
  mk_clock r_hour r_min r_sec r_t_sec.

Definition systime_init : systime_t :=
  mk_systime
    (mk_date 0 1 1)
    (mk_systick 10
       (mk_counter 0 true TSEC_IN_DAY (Some cb_systime_IncDate))
       (mk_countdown false 0 None)).

Definition set_counter_value (v : Z) (time : systime_t) : systime_t :=
  let st := systick time in
  let c := counter st in
  mk_systime (date time)
    (mk_systick (tick_rate st)
       (mk_counter v (cmp_en c) (cmp c) (counter_cb c))
       (countdown st)).

Definition set_countdown (cd : countdown_t) (time : systime_t) : systime_t :=
  let st := systick time in
  mk_systime (date time) (mk_systick (tick_rate st) (counter st) cd).

Definition set_date (d : date_t) (time : systime_t) : systime_t :=
  mk_systime d (systick time).

Definition systime_SetTime (new_clock : clock_t) (time : systime_t)
  : bool * systime_t :=
  if (t_sec new_clock <? TSEC_IN_SEC) &&
     (sec new_clock <? SEC_IN_MIN) &&
     (min new_clock <? MIN_IN_HOUR) &&
     (hour new_clock <? HOUR_IN_DAY)
  then (true, set_counter_value (systime_ConvertClock new_clock) time)
  else (false, time).

Definition systime_GetTime (time : systime_t) : clock_t :=
  systime_ConvertTickCounter (counter_value (counter (systick time))).

(** The conjunction is evaluated left to right and stops at the first false
    operand, so the table is read only for a month in [[1, 12]]. *)
Definition systime_SetDate (new_date : date_t) (time : systime_t)
  : result (bool * systime_t) :=
  if (year new_date <? 9999) &&
     (0 <? month new_date) && (month new_date <=? MONTH_IN_YEAR) &&
     (0 <? day new_date)
  then
    dim ← DaysInMonth (u8 (month new_date - 1)) (year new_date);
    if day new_date <=? dim
    then Ok (true, set_date new_date time)
    else Ok (false, time)
  else Ok (false, time).

Definition systime_GetDate (time : systime_t) : date_t := date time.

Definition systime_SetAlarm (alarm_clock : clock_t) (alarm_cb : callback)
    (time : systime_t) : bool * systime_t :=
  (true,
   set_countdown
     (mk_countdown true (systime_ConvertClock alarm_clock) (Some alarm_cb))
     time).

Definition systime_ClearAlarm (time : systime_t) : systime_t :=
  let cd := countdown (systick time) in
  set_countdown (mk_countdown false (countdown_value cd) (countdown_cb cd)) time.

Definition systime_IncDate_callback (time : systime_t) : result systime_t :=
  let d := date time in
  let d := mk_date (year d) (month d) (u8 (day d + 1)) in
  dim ← DaysInMonth (u8 (month d - 1)) (year d);
  if dim <? day d then
    let d := mk_date (year d) (u8 (month d + 1)) 1 in
    if MONTH_IN_YEAR <? month d then
      Ok (set_date (mk_date (u16 (year d + 1)) 1 (day d)) time)
    else Ok (set_date d time)
  else Ok (set_date d time).

(** ** Characters and text *)

Local Open Scope char_scope.

Definition NUL : ascii := "000".
Definition SPACE : ascii := " ".
Definition BS : ascii := "008".
Definition LF : ascii := "010".
Definition CR : ascii := "013".
Definition ESC : ascii := "027".
Definition DEL : ascii := "127".

(** [toupper] of the C locale. *)
Definition toupper (c : ascii) : ascii :=
  let n := N_of_ascii c in
  if ((97 <=? n) && (n <=? 122))%N then ascii_of_N (n - 32) else c.

(** [memcmp(a, b, n) != 0]: the first [n] bytes differ. *)
Definition memcmp (a b : list ascii) (n : nat) : bool :=
  negb (bool_decide (take n a = take n b)).

(** The C string that starts at the head of [l]: the bytes before the first
    NUL.  Without a NUL inside the array the read runs off its end. *)
Fixpoint cstr (l : list ascii) : result string :=
  match l with
  | [] => Fault
  | c :: l' =>
      if Ascii.eqb c NUL then Ok EmptyString
      else s ← cstr l'; Ok (String c s)
  end.

Local Open Scope string_scope.

(** [%u] and [%0wu] conversions of [sprintf]. *)
Definition fmt_u (n : Z) : string :=
  NilZero.string_of_uint (N.to_uint (Z.to_N n)).

Fixpoint zeros (n : nat) : string :=
  match n with
  | O => ""
  | S n' => String "0" (zeros n')
  end.

Definition fmt_0u (w : nat) (n : Z) : string :=
  let s := fmt_u n in zeros (w - String.length s) ++ s.

(** [sprintf(time_str, "%02u:%02u:%02u.%u", hour, min, sec, t_sec)] *)
Definition sprintf_clock (c : clock_t) : string :=
  fmt_0u 2 (hour c) ++ ":" ++ fmt_0u 2 (min c) ++ ":" ++
  fmt_0u 2 (sec c) ++ "." ++ fmt_u (t_sec c).

(** [sprintf(date_str, "%02u-%3s-%04u", day, month_name, year)] *)
Definition sprintf_date (d : Z) (month_name : string) (y : Z) : string :=
  fmt_0u 2 d ++ "-" ++ month_name ++ "-" ++ fmt_0u 4 y.

Local Open Scope Z_scope.

(** ** query_handler.h, query_handler.c *)

Definition MONTHS : list string :=
  [ "JAN"; "FEB"; "MAR"; "APR"; "MAY"; "JUN";
    "JUL"; "AUG"; "SEP"; "OCT"; "NOV"; "DEC" ].

Definition TIME_QUERY : string := "TIME".
Definition DATE_QUERY : string := "DATE".
Definition ALARM_QUERY : string := "ALARM".

Definition CURSOR_LEFT : string := String ESC "[D".
Definition CURSOR_RIGHT : string := String ESC "[C".
Definition CURSOR_UP : string := String ESC "[A".
Definition CURSOR_DOWN : string := String ESC "[B".
Definition CLEAR_SCREEN : string := String ESC "[2J".
Definition CURSOR_HOME : string := String ESC "[H".
Definition ALARM_BELL : string := String "007" "".
Definition NL : string := String LF "".

Definition VALID_DATE_SCAN : Z := 3.
Definition VALID_TIME_SCAN : Z := 4.
Definition VALID_ALARM_SCAN : Z := VALID_TIME_SCAN.

(** Modelled from the spec: [circular_buffer_t] and its operations live in
    the UART driver, which is not among the sources.  Section 3 gives the
    edit buffer as a fixed-capacity byte sequence with a write pointer that
    the query handler uses as its cursor; these are the two fields that
    [query_handler.c] reads and writes. *)
Record circular_buffer_t : Type := mk_buffer {
  data : list ascii;
  wr_ptr : Z   (* unsigned index into [data]; the cursor of the query buffer *)
}.

Record query_buffer_t : Type := mk_query {
  buffer : circular_buffer_t;
  entry_ptr : Z   (* uint32_t *)
}.

(** Modelled from the spec: the receive buffer is used only through the
    queue interface of section 6 (dequeue one byte, dequeue N bytes,
    occupied size), so it is kept as the sequence of bytes that have
    arrived and are not yet consumed. *)
Definition rx_queue : Type := list ascii.

(** The program state: the static [time] of systime.c, the static [query]
    of query_handler.c, and the text handed to [UART0_puts] so far, one
    entry per call, oldest first. *)
Record monitor_t : Type := mk_monitor {
  time : systime_t;
  query : query_buffer_t;
  uart : list string
}.

Definition UART0_puts (s : string) (m : monitor_t) : monitor_t :=
  mk_monitor (time m) (query m) (uart m ++ [s]).

Definition set_time (t : systime_t) (m : monitor_t) : monitor_t :=
  mk_monitor t (query m) (uart m).

Definition set_query (q : query_buffer_t) (m : monitor_t) : monitor_t :=
  mk_monitor (time m) q (uart m).

Definition set_wr_ptr (w : Z) (m : monitor_t) : monitor_t :=
  let q := query m in
  set_query (mk_query (mk_buffer (data (buffer q)) w) (entry_ptr q)) m.

Definition set_entry_ptr (e : Z) (m : monitor_t) : monitor_t :=
  set_query (mk_query (buffer (query m)) e) m.

Definition set_data (d : list ascii) (m : monitor_t) : monitor_t :=
  let q := query m in
  set_query (mk_query (mk_buffer d (wr_ptr (buffer q))) (entry_ptr q)) m.

Definition cursor (m : monitor_t) : Z := wr_ptr (buffer (query m)).
Definition entry_length (m : monitor_t) : Z := entry_ptr (query m).

(** [clock_temp] of [SetAlarm] after lines 299-316: the current time is
    added field by field, then the carries are applied. *)
Definition SetAlarm_arm_time (clock_temp current_time : clock_t) : clock_t :=
  let ts := u8 (t_sec clock_temp + t_sec current_time) in
  let s := u8 (sec clock_temp + sec current_time) in
  let mi := u8 (min clock_temp + min current_time) in
  let h := u8 (hour clock_temp + hour current_time) in
  let '(ts, s) :=
    if TSEC_IN_SEC <? ts then (u8 (ts - TSEC_IN_SEC), u8 (s + 1)) else (ts, s) in
  let '(s, mi) :=
    if SEC_IN_MIN <? s then (u8 (s - SEC_IN_MIN), u8 (mi + 1)) else (s, mi) in
  let '(mi, h) :=
    if MIN_IN_HOUR <? mi then (u8 (mi - MIN_IN_HOUR), u8 (h + 1)) else (mi, h) in
  let h := u8 (h mod HOUR_IN_DAY) in
  mk_clock h mi s ts.

(** [sscanf] outcomes used to run the program on a concrete command: all
    conversions succeed and leave the given values in the destinations. *)
Definition scanned_clock (c : clock_t) : string -> Z * clock_t :=
  fun _ => (VALID_TIME_SCAN, c).

Definition scanned_date (d : Z) (month_str : string) (y : Z)
  : string -> Z * (Z * list ascii * Z) :=
  fun _ => (VALID_DATE_SCAN, (d, (list_ascii_of_string month_str ++ [NUL])%list, y)).


Section QueryHandler.

(** The number of bytes the edit buffer holds.  The constant is defined in
    the UART driver's header, which is not among the sources. *)
Variable capacity : Z.

(** [sscanf] of the C library on the two formats the program uses.  The
    result is the return value together with the contents of the
    destination objects after the call (a destination that no conversion
    reached holds whatever it held before).
    - [sscanf(s, "%2hhu:%2hhu:%2hhu.%1hhu", &hour, &min, &sec, &t_sec)]
    - [sscanf(s, "%hhu-%3s-%hu", &day, month_str, &year)] *)
Variable sscanf_clock : string -> Z * clock_t.
Variable sscanf_date : string -> Z * (Z * list ascii * Z).

(** Modelled from the spec: [enqueuec_s(buf, c, false)] is defined in the
    UART driver, which is not among the sources.  Section 4.2: attempt
    insert at cursor into buffer capped at capacity; on overflow the
    caller emits an erase echo instead; a successful insert advances the
    cursor.  The result is [true] when the byte was stored. *)
Definition enqueuec_s (buf : circular_buffer_t) (c : ascii)
  : bool * circular_buffer_t :=
  if (0 <=? wr_ptr buf) && (wr_ptr buf <? capacity)
  then (true, mk_buffer (<[Z.to_nat (wr_ptr buf) := c]> (data buf)) (wr_ptr buf + 1))
  else (false, buf).

(** Modelled from the spec: [circular_buffer_init] of the UART driver. The
    storage of the static [query] starts zero-filled. *)
Definition circular_buffer_init : circular_buffer_t :=
  mk_buffer (replicate (Z.to_nat capacity) NUL) 0.

Definition QueryHandler_Init (t : systime_t) : monitor_t :=
  let m := mk_monitor t (mk_query circular_buffer_init 0) [] in
  let m := UART0_puts CLEAR_SCREEN m in
  let m := UART0_puts CURSOR_HOME m in
  UART0_puts "> " m.

(** The loop of [FindMonthValue], entered at [i] with [n] table entries
    left before [MONTH_IN_YEAR]. *)
Fixpoint FindMonthValue_loop (month_str : list ascii) (n : nat) (i : Z)
  : result Z :=
  match n with
  | O => Ok i
  | S n' =>
      m ← index MONTHS i;
      if memcmp month_str (list_ascii_of_string m) 3
      then FindMonthValue_loop month_str n' (i + 1)
      else Ok i
  end.

Definition FindMonthValue (month_str : list ascii) : result Z :=
  i ← FindMonthValue_loop month_str (Z.to_nat (MONTH_IN_YEAR - 0)) 0;
  Ok (u8 i).

Definition DisplayTime (m : monitor_t) : monitor_t :=
  let clock_temp := systime_GetTime (time m) in
  let m := UART0_puts (sprintf_clock clock_temp) m in
  UART0_puts (" " ++ NL) m.

Definition DisplayDate (m : monitor_t) : result monitor_t :=
  let date_temp := systime_GetDate (time m) in
  name ← index MONTHS (month date_temp - 1);
  let m := UART0_puts (sprintf_date (day date_temp) name (year date_temp)) m in
  Ok (UART0_puts (" " ++ NL) m).

Definition SetTime (new_time_str : string) (m : monitor_t) : bool * monitor_t :=
  let '(scan_res, clock_temp) := sscanf_clock new_time_str in
  if scan_res =? VALID_TIME_SCAN then
    let '(ok, t) := systime_SetTime clock_temp (time m) in
    if ok then
      let m := set_time t m in
      let m := UART0_puts (sprintf_clock clock_temp) m in
      (true, UART0_puts (" " ++ NL) m)
    else (false, m)
  else (false, m).

Definition SetDate (new_date_str : string) (m : monitor_t)
  : result (bool * monitor_t) :=
  let '(scan_res, (d, month_str, y)) := sscanf_date new_date_str in
  mv ← FindMonthValue month_str;
  let date_temp := mk_date y (u8 (mv + 1)) d in
  if scan_res =? VALID_DATE_SCAN then
    r ← systime_SetDate date_temp (time m);
    if (fst r : bool) then
      let m := set_time (snd r) m in
      name ← index MONTHS (month date_temp - 1);
      let m := UART0_puts (sprintf_date (day date_temp) name (year date_temp)) m in
      Ok (true, UART0_puts (" " ++ NL) m)
    else Ok (false, m)
  else Ok (false, m).

Definition SetAlarm (alarm_str : string) (m : monitor_t) : bool * monitor_t :=
  let '(scan_res, clock_temp) := sscanf_clock alarm_str in
  if scan_res =? VALID_ALARM_SCAN then
    let '(retval, t) := systime_SetAlarm clock_temp cb_Alarm (time m) in
    let m := set_time t m in
    let current_time := systime_GetTime (time m) in
    let clock_temp := SetAlarm_arm_time clock_temp current_time in
    let m := UART0_puts "Alarm at " m in
    let m := UART0_puts (sprintf_clock clock_temp) m in
    (retval, UART0_puts (" " ++ NL) m)
  else (false, m).

Definition Alarm_callback (m : monitor_t) : monitor_t :=
  let m := UART0_puts ALARM_BELL m in
  let m := UART0_puts (NL ++ "* ALARM * ") m in
  let clock_temp := systime_GetTime (time m) in
  let m := UART0_puts (sprintf_clock clock_temp) m in
  let m := UART0_puts (" * " ++ NL) m in
  UART0_puts "> " m.

(** [while (i < bound && p(query_str[i])) i++], entered at [i] with [n]
    positions left before [bound]. *)
Fixpoint scan_while (p : ascii -> bool) (query_str : list ascii) (n : nat)
    (i : Z) : result Z :=
  match n with
  | O => Ok i
  | S n' =>
      c ← index query_str i;
      if p c then scan_while p query_str n' (i + 1) else Ok i
  end.

(** Array write [a[i] = x]. *)
Definition store (a : list ascii) (i : Z) (x : ascii) : result (list ascii) :=
  if (0 <=? i) && (i <? Z.of_nat (length a))
  then Ok (<[Z.to_nat i := x]> a)
  else Fault.

Definition is_space (c : ascii) : bool := Ascii.eqb c SPACE.
Definition not_space (c : ascii) : bool := negb (Ascii.eqb c SPACE).

(** The C string at [query_str + i]. *)
Definition cstr_at (query_str : list ascii) (i : Z) : result string :=
  if (0 <=? i) && (i <? Z.of_nat (length query_str))
  then cstr (drop (Z.to_nat i) query_str)
  else Fault.

Definition QueryCheck (m : monitor_t) : result (bool * monitor_t) :=
  let query_str := data (buffer (query m)) in
  let length := entry_ptr (query m) in
  let i := 0 in
  i ← scan_while is_space query_str (Z.to_nat (length + 1 - i)) i;
  let keyword := i in
  i ← scan_while not_space query_str (Z.to_nat (length - i)) i;
  query_str ← store query_str i NUL;
  let m := set_data query_str m in
  let i := i + 1 in
  i ← scan_while is_space query_str (Z.to_nat (length - i)) i;
  let set_data := if i <? length then Some i else None in
  keyword ← cstr_at query_str keyword;
  if String.eqb keyword TIME_QUERY then
    match set_data with
    | Some p => s ← cstr_at query_str p; Ok (SetTime s m)
    | None => Ok (true, DisplayTime m)
    end
  else if String.eqb keyword DATE_QUERY then
    match set_data with
    | Some p => s ← cstr_at query_str p; SetDate s m
    | None => m ← DisplayDate m; Ok (true, m)
    end
  else if String.eqb keyword ALARM_QUERY then
    match set_data with
    | Some p => s ← cstr_at query_str p; Ok (SetAlarm s m)
    | None =>
        let m := set_time (systime_ClearAlarm (time m)) m in
        Ok (true, UART0_puts ("Alarm has been cleared" ++ NL) m)
    end
  else Ok (false, m).

(** The loop of the down-arrow case, with [n] positions between the cursor
    and the end of the entry. *)
Fixpoint cursor_to_end (n : nat) (m : monitor_t) : monitor_t :=
  match n with
  | O => m
  | S n' =>
      let m := UART0_puts CURSOR_RIGHT m in
      cursor_to_end n' (set_wr_ptr (cursor m + 1) m)
  end.

(** The two bytes after ESC are taken from the receive buffer once both
    have arrived; until then the function waits. *)
Definition CursorCodeCheck (rx_buf : rx_queue) (m : monitor_t)
  : result (rx_queue * monitor_t) :=
  match rx_buf with
  | sqbkrt :: code :: rx_buf =>
      if Ascii.eqb code "A" then
        Ok (rx_buf, UART0_puts CURSOR_DOWN m)
      else if Ascii.eqb code "B" then
        let m := UART0_puts CURSOR_UP m in
        Ok (rx_buf, cursor_to_end (Z.to_nat (entry_length m - cursor m)) m)
      else if Ascii.eqb code "C" then
        if cursor m <? entry_length m
        then Ok (rx_buf, set_wr_ptr (cursor m + 1) m)
        else Ok (rx_buf, UART0_puts CURSOR_LEFT m)
      else if Ascii.eqb code "D" then
        if 0 <? cursor m
        then Ok (rx_buf, set_wr_ptr (cursor m - 1) m)
        else Ok (rx_buf, UART0_puts CURSOR_RIGHT m)
      else Ok (rx_buf, m)
  | _ => Blocked
  end.

Definition QueryHandler_Update (rx_buf : rx_queue) (m : monitor_t)
  : result (rx_queue * monitor_t) :=
  match rx_buf with
  | [] => Blocked
  | c :: rx_buf =>
      if Ascii.eqb c BS || Ascii.eqb c DEL then
        if 0 <? cursor m then
          let m := set_wr_ptr (cursor m - 1) m in
          Ok (rx_buf, set_entry_ptr (u32 (entry_length m - 1)) m)
        else Ok (rx_buf, UART0_puts " " m)
      else if Ascii.eqb c CR || Ascii.eqb c LF then
        r ← QueryCheck m;
        let m := if (fst r : bool) then snd r
                 else UART0_puts ("? " ++ NL) (snd r) in
        let m := set_entry_ptr 0 m in
        let m := set_wr_ptr 0 m in
        Ok (rx_buf, UART0_puts "> " m)
      else if Ascii.eqb c ESC then
        CursorCodeCheck rx_buf m
      else
        let '(ok, buf) := enqueuec_s (buffer (query m)) (toupper c) in
        let m := set_query (mk_query buf (entry_length m)) m in
        let m := if ok then m else UART0_puts (String BS "") m in
        let m := if entry_length m <? cursor m
                 then set_entry_ptr (cursor m) m else m in
        Ok (rx_buf, m)
  end.

(** main.c: [n] turns of the polling loop over the bytes that have
    arrived; a turn with an empty receive buffer does nothing. *)
Fixpoint main_loop (n : nat) (rx_buf : rx_queue) (m : monitor_t)
  : result (rx_queue * monitor_t) :=
  match n with
  | O => Ok (rx_buf, m)
  | S n' =>
      match rx_buf with
      | [] => main_loop n' rx_buf m
      | _ :: _ =>
          r ← QueryHandler_Update rx_buf m;
          main_loop n' (fst r) (snd r)
      end
  end.

(** [n] firings of the day comparator: the driver calls
    [systime_IncDate_callback] once per elapsed day. *)
Fixpoint days_pass (n : nat) (time : systime_t) : result systime_t :=
  match n with
  | O => Ok time
  | S n' => t ← systime_IncDate_callback time; days_pass n' t
  end.

(** The calls that the application and the driver make into systime.c. *)
Inductive systime_call : Type :=
  | call_SetTime (new_clock : clock_t)
  | call_SetDate (new_date : date_t)
  | call_SetAlarm (alarm_clock : clock_t) (alarm_cb : callback)
  | call_ClearAlarm
  | call_IncDate_callback.

Definition systime_do (c : systime_call) (time : systime_t) : result systime_t :=
  match c with
  | call_SetTime new_clock => Ok (snd (systime_SetTime new_clock time))
  | call_SetDate new_date => r ← systime_SetDate new_date time; Ok (snd r)
  | call_SetAlarm alarm_clock alarm_cb =>
      Ok (snd (systime_SetAlarm alarm_clock alarm_cb time))
  | call_ClearAlarm => Ok (systime_ClearAlarm time)
  | call_IncDate_callback => systime_IncDate_callback time
  end.

Fixpoint systime_run (cs : list systime_call) (time : systime_t)
  : result systime_t :=
  match cs with
  | [] => Ok time
  | c :: cs' => t ← systime_do c time; systime_run cs' t
  end.

(** ** Properties the program is checked against *)

(** A clock whose fields are all inside their modular ranges. *)
Definition clock_in_range (c : clock_t) : Prop :=
  0 <= hour c < 24 /\ 0 <= min c < 60 /\ 0 <= sec c < 60 /\ 0 <= t_sec c < 10.

(** The leap-year rule: divisible by 4, and divisible by 400 or not by 100. *)
Definition leap_year (y : Z) : Prop :=
  y mod 4 = 0 /\ (y mod 400 = 0 \/ y mod 100 <> 0).

Global Instance leap_year_dec (y : Z) : Decision (leap_year y).
Proof. unfold leap_year. apply _. Defined.

(** Calendar length of month [m] (January is 1) in year [y]. *)
Definition month_length (m y : Z) : Z :=
  match m with
  | 2 => if decide (leap_year y) then 29 else 28
  | 4 | 6 | 9 | 11 => 30
  | _ => 31
  end.

(** A date that [systime_SetDate] is meant to accept. *)
Definition date_valid (d : date_t) : Prop :=
  1 <= month d <= 12 /\
  1 <= day d <= month_length (month d) (year d) /\
  year d < 9999.

(** The invariant of the stored date. *)
Definition date_inv (d : date_t) : Prop :=
  1 <= month d <= 12 /\ 1 <= day d <= month_length (month d) (year d).

(** The day-rollover algorithm: increment day; if day exceeds the month
    length, reset day to 1 and increment month; if month exceeds 12, reset
    month to 1 and increment year (a [uint16_t]). *)
Definition rollover (d : date_t) : date_t :=
  if day d + 1 <=? month_length (month d) (year d)
  then mk_date (year d) (month d) (day d + 1)
  else if month d + 1 <=? 12
  then mk_date (year d) (month d + 1) 1
  else mk_date (u16 (year d + 1)) 1 1.

(** The time of day that lies [entered] after [now]: the two tick counts
    added, wrapped at one day, and converted back to a clock. *)
Definition arm_time_expected (entered now : clock_t) : clock_t :=
  systime_ConvertTickCounter
    ((systime_ConvertClock entered + systime_ConvertClock now) mod TSEC_IN_DAY).

(** The invariant of the edit buffer; both indices are unsigned. *)
Definition buffer_inv (m : monitor_t) : Prop :=
  0 <= cursor m /\ cursor m <= entry_length m /\ entry_length m <= capacity.

(** Number of days of year [y]. *)
Definition days_in_year (y : Z) : nat :=
  if decide (leap_year y) then 366%nat else 365%nat.



(** What a query may do to the program state: it never touches the edit
    buffer; when it reports failure the engine and the output are as
    before; when it reports success it has printed something. *)
Definition command_effect (valid : bool) (m m' : monitor_t) : Prop :=
  query m' = query m /\
  (valid = false -> time m' = time m /\ uart m' = uart m) /\
  (valid = true -> exists out, out <> [] /\ uart m' = (uart m ++ out)%list).

(** * Time engine *)

Lemma u32_small (z : Z) : 0 <= z < 2 ^ 32 -> u32 z = z.
Proof. intros H. unfold u32. now apply Z.mod_small. Qed.

Lemma u8_small (z : Z) : 0 <= z < 2 ^ 8 -> u8 z = z.
Proof. intros H. unfold u8. now apply Z.mod_small. Qed.

Lemma div_step (d q r : Z) : 0 <= r < d -> (r + q * d) / d = q.
Proof.
  intros H. symmetry. apply Z.div_unique with (r := r); lia.
Qed.

Lemma ConvertClock_value (c : clock_t) :
  clock_wf c ->
  systime_ConvertClock c =
    t_sec c + sec c * 10 + min c * 600 + hour c * 36000.
Proof.
  intros (Hh & Hm & Hs & Ht). unfold is_u8 in *.
  unfold systime_ConvertClock, TSEC_IN_HOUR, TSEC_IN_MIN, MIN_IN_HOUR,
    SEC_IN_MIN, TSEC_IN_SEC.
  apply u32_small. lia.
Qed.

Lemma clock_in_range_wf (c : clock_t) : clock_in_range c -> clock_wf c.
Proof. unfold clock_in_range, clock_wf, is_u8. lia. Qed.

Lemma ConvertTickCounter_ConvertClock (c : clock_t) :
  clock_in_range c ->
  systime_ConvertTickCounter (systime_ConvertClock c) = c.
Proof.
  intros Hr. rewrite ConvertClock_value by now apply clock_in_range_wf.
  destruct c as [h m s t]. unfold clock_in_range in Hr. simpl in *.
  destruct Hr as (Hh & Hm & Hs & Ht).
  unfold systime_ConvertTickCounter, TSEC_IN_HOUR, TSEC_IN_MIN, MIN_IN_HOUR,
    SEC_IN_MIN, TSEC_IN_SEC.
  change (10 * 60 * 60) with 36000. change (10 * 60) with 600.
  rewrite (div_step 36000 h) by lia.
  rewrite (u8_small h) by lia.
  replace (t + s * 10 + m * 600 + h * 36000 - 36000 * h)
    with (t + s * 10 + m * 600) by lia.
  rewrite (u32_small (t + s * 10 + m * 600)) by lia.
  rewrite (div_step 600 m) by lia.
  rewrite (u8_small m) by lia.
  replace (t + s * 10 + m * 600 - 600 * m) with (t + s * 10) by lia.
  rewrite (u32_small (t + s * 10)) by lia.
  rewrite (div_step 10 s) by lia.
  rewrite (u8_small s) by lia.
  replace (t + s * 10 - 10 * s) with t by lia.
  rewrite (u32_small t) by lia.
  rewrite (u8_small t) by lia.
  reflexivity.
Qed.

(** C1. For every clock with hour in [0,23], minute in [0,59], second in
    [0,59] and tenth-second in [0,9], converting it to a tick count with
    [systime_ConvertClock] and back with [systime_ConvertTickCounter]
    gives the original clock. *)
Theorem ConvertClock_roundtrip (c : clock_t) :
  clock_in_range c ->
  systime_ConvertTickCounter (systime_ConvertClock c) = c.
Proof. exact (ConvertTickCounter_ConvertClock c). Qed.

Lemma ConvertClock_roundtrip_witness :
  clock_in_range (mk_clock 23 59 59 9) /\
  systime_ConvertTickCounter (systime_ConvertClock (mk_clock 23 59 59 9))
    = mk_clock 23 59 59 9.
Proof.
  assert (H : clock_in_range (mk_clock 23 59 59 9))
    by (unfold clock_in_range; simpl; lia).
  split; [exact H | exact (ConvertClock_roundtrip (mk_clock 23 59 59 9) H)].
Defined.

Lemma IS_LEAP_YR_spec (y : Z) : IS_LEAP_YR y = true <-> leap_year y.
Proof.
  unfold IS_LEAP_YR, leap_year.
  rewrite andb_true_iff, orb_true_iff, negb_true_iff.
  rewrite !Z.eqb_eq, Z.eqb_neq. reflexivity.
Qed.

Lemma DaysInMonth_february (y : Z) :
  DaysInMonth 1 y = Ok (if decide (leap_year y) then 29 else 28).
Proof.
  unfold DaysInMonth. destruct (IS_LEAP_YR y) eqn:E.
  - apply IS_LEAP_YR_spec in E. destruct (decide (leap_year y)); [reflexivity | tauto].
  - destruct (decide (leap_year y)) as [L | L]; [| reflexivity].
    apply IS_LEAP_YR_spec in L. congruence.
Qed.

Lemma DaysInMonth_fixed (m y : Z) :
  0 <= m < 12 -> m <> 1 -> DaysInMonth m y = Ok (month_length (m + 1) y).
Proof.
  intros Hm Hne.
  assert (C : m = 0 \/ m = 2 \/ m = 3 \/ m = 4 \/ m = 5 \/ m = 6 \/ m = 7 \/
              m = 8 \/ m = 9 \/ m = 10 \/ m = 11) by lia.
  unfold DaysInMonth.
  destruct (IS_LEAP_YR y);
    repeat (destruct C as [-> | C]; [reflexivity |]); subst m; reflexivity.
Qed.

Lemma DaysInMonth_month_length (m y : Z) :
  1 <= m <= 12 -> DaysInMonth (u8 (m - 1)) y = Ok (month_length m y).
Proof.
  intros Hm. rewrite u8_small by (change (2 ^ 8) with 256; lia).
  destruct (Z.eq_dec m 2) as [-> | Hne].
  - exact (DaysInMonth_february y).
  - rewrite DaysInMonth_fixed by lia. f_equal. f_equal. lia.
Qed.

Lemma month_length_bounds (m y : Z) : 28 <= month_length m y <= 31.
Proof.
  unfold month_length.
  destruct m as [| p | p]; try lia.
  destruct (decide (leap_year y));
    repeat (destruct p as [p | p |]; try lia).
Qed.

(** C2. [systime_SetTime] succeeds exactly on the clocks whose fields are
    all in range (hour<24, minute<60, second<60, tenth-second<10); when it
    fails the engine, and with it the tick counter and the time read back,
    is unchanged; 24:00:00.0 is refused.  On success the time read back is
    the clock that was set. *)
Theorem systime_SetTime_checks_ranges (c : clock_t) (t : systime_t) :
  clock_wf c ->
  (fst (systime_SetTime c t) = true <-> clock_in_range c) /\
  (fst (systime_SetTime c t) = false ->
     snd (systime_SetTime c t) = t /\
     systime_GetTime (snd (systime_SetTime c t)) = systime_GetTime t) /\
  (fst (systime_SetTime c t) = true ->
     systime_GetTime (snd (systime_SetTime c t)) = c) /\
  systime_SetTime (mk_clock 24 0 0 0) t = (false, t).
Proof.
  intros Hwf.
  assert (Hiff : fst (systime_SetTime c t) = true <-> clock_in_range c).
  { destruct Hwf as (Hh & Hm & Hs & Ht). unfold is_u8 in *.
    unfold systime_SetTime, clock_in_range,
      TSEC_IN_SEC, SEC_IN_MIN, MIN_IN_HOUR, HOUR_IN_DAY.
    destruct (Z.ltb_spec (t_sec c) 10), (Z.ltb_spec (sec c) 60),
      (Z.ltb_spec (min c) 60), (Z.ltb_spec (hour c) 24);
      simpl; split; intros; try discriminate; try lia; reflexivity. }
  split; [exact Hiff |]. split; [| split].
  - unfold systime_SetTime.
    destruct (_ && _ && _ && _); simpl; [discriminate | auto].
  - intros Hok. pose proof (proj1 Hiff Hok) as Hr.
    unfold systime_SetTime in *.
    destruct (_ && _ && _ && _); simpl in *; [| discriminate].
    unfold systime_GetTime. simpl. now apply ConvertTickCounter_ConvertClock.
  - reflexivity.
Qed.

Lemma systime_SetTime_checks_ranges_witness :
  clock_wf (mk_clock 24 0 0 0) /\
  fst (systime_SetTime (mk_clock 24 0 0 0) systime_init) = false /\
  snd (systime_SetTime (mk_clock 24 0 0 0) systime_init) = systime_init.
Proof.
  assert (Hwf : clock_wf (mk_clock 24 0 0 0))
    by (unfold clock_wf, is_u8; simpl; lia).
  pose proof (systime_SetTime_checks_ranges (mk_clock 24 0 0 0) systime_init Hwf)
    as (_ & Hfail & _).
  split; [exact Hwf |]. split; [reflexivity |].
  exact (proj1 (Hfail eq_refl)).
Defined.

Lemma systime_SetDate_spec (d : date_t) (t : systime_t) :
  exists ok : bool,
    systime_SetDate d t = Ok (ok, if ok then set_date d t else t) /\
    (ok = true <-> date_valid d).
Proof.
  unfold systime_SetDate, date_valid, MONTH_IN_YEAR.
  destruct (Z.ltb_spec (year d) 9999); simpl;
    [| exists false; split; [reflexivity | split; [discriminate | lia]]].
  destruct (Z.ltb_spec 0 (month d)); simpl;
    [| exists false; split; [reflexivity | split; [discriminate | lia]]].
  destruct (Z.leb_spec (month d) 12); simpl;
    [| exists false; split; [reflexivity | split; [discriminate | lia]]].
  destruct (Z.ltb_spec 0 (day d)); simpl;
    [| exists false; split; [reflexivity | split; [discriminate | lia]]].
  rewrite DaysInMonth_month_length by lia. simpl.
  destruct (Z.leb_spec (day d) (month_length (month d) (year d))).
  - exists true. split; [reflexivity | split; [lia | reflexivity]].
  - exists false. split; [reflexivity | split; [discriminate | lia]].
Qed.

(** C3. [systime_SetDate] completes on every argument and returns success
    exactly when the month is in [1,12], the day is in [1, length of that
    month in that year] under the leap-year rule, and the year is below
    9999.  On success the stored date is the argument, field for field,
    and the rest of the engine (tick counter, comparator, alarm) is as
    before; on failure the whole engine, the stored date included, is
    unchanged.  31-FEB-2021 is refused with the state unchanged, and
    29-FEB-2020 is accepted and becomes the stored date. *)
Theorem systime_SetDate_checks_calendar (d : date_t) (t : systime_t) :
  (exists (ok : bool) (t' : systime_t),
     systime_SetDate d t = Ok (ok, t') /\
     t' = (if ok then set_date d t else t) /\
     (ok = true <-> date_valid d) /\
     (ok = true ->
        date t' = d /\
        year (systime_GetDate t') = year d /\
        month (systime_GetDate t') = month d /\
        day (systime_GetDate t') = day d /\
        systick t' = systick t) /\
     (ok = false -> t' = t /\ systime_GetDate t' = systime_GetDate t)) /\
  systime_SetDate (mk_date 2021 2 31) t = Ok (false, t) /\
  systime_SetDate (mk_date 2020 2 29) t
    = Ok (true, set_date (mk_date 2020 2 29) t) /\
  (exists t',
     systime_SetDate (mk_date 2020 2 29) t = Ok (true, t') /\
     systime_GetDate t' = mk_date 2020 2 29 /\
     systick t' = systick t).
Proof.
  split; [| split; [reflexivity | split; [reflexivity |]]].
  - destruct (systime_SetDate_spec d t) as (ok & Heq & Hok).
    exists ok, (if ok then set_date d t else t).
    split; [exact Heq |]. split; [reflexivity |]. split; [exact Hok |].
    destruct ok.
    + split; [| discriminate]. intros _. repeat split.
    + split; [discriminate |]. intros _. split; reflexivity.
  - exists (set_date (mk_date 2020 2 29) t). repeat split.
Qed.

(** C4. For every year, [DaysInMonth] on February gives 29 exactly when the
    year is divisible by 4 and (divisible by 400 or not divisible by 100),
    and 28 otherwise; every other month has its fixed length whatever the
    year. *)
Theorem DaysInMonth_leap_rule (y : Z) :
  (DaysInMonth 1 y = Ok 29 <-> leap_year y) /\
  (DaysInMonth 1 y = Ok 28 <-> ~ leap_year y) /\
  DaysInMonth 0 y = Ok 31 /\ DaysInMonth 2 y = Ok 31 /\
  DaysInMonth 3 y = Ok 30 /\ DaysInMonth 4 y = Ok 31 /\
  DaysInMonth 5 y = Ok 30 /\ DaysInMonth 6 y = Ok 31 /\
  DaysInMonth 7 y = Ok 31 /\ DaysInMonth 8 y = Ok 30 /\
  DaysInMonth 9 y = Ok 31 /\ DaysInMonth 10 y = Ok 30 /\
  DaysInMonth 11 y = Ok 31.
Proof.
  rewrite DaysInMonth_february.
  split; [| split].
  - destruct (decide (leap_year y)); split; intros; try tauto; discriminate.
  - destruct (decide (leap_year y)); split; intros; try tauto; discriminate.
  - repeat split; rewrite DaysInMonth_fixed by lia; reflexivity.
Qed.

Lemma IncDate_callback_rollover (t : systime_t) :
  date_inv (date t) ->
  systime_IncDate_callback t = Ok (set_date (rollover (date t)) t).
Proof.
  intros (Hm & Hd).
  pose proof (month_length_bounds (month (date t)) (year (date t))) as Hb.
  unfold systime_IncDate_callback, rollover, MONTH_IN_YEAR. simpl.
  rewrite DaysInMonth_month_length by lia. simpl.
  rewrite (u8_small (day (date t) + 1)) by (change (2 ^ 8) with 256; lia).
  rewrite (u8_small (month (date t) + 1)) by (change (2 ^ 8) with 256; lia).
  destruct (Z.ltb_spec (month_length (month (date t)) (year (date t)))
              (day (date t) + 1)),
    (Z.leb_spec (day (date t) + 1)
       (month_length (month (date t)) (year (date t)))); try lia;
    [| reflexivity].
  destruct (Z.ltb_spec 12 (month (date t) + 1)),
    (Z.leb_spec (month (date t) + 1) 12); try lia; reflexivity.
Qed.

Lemma rollover_inv (d : date_t) : date_inv d -> date_inv (rollover d).
Proof.
  intros (Hm & Hd). unfold rollover, date_inv.
  destruct (Z.leb_spec (day d + 1) (month_length (month d) (year d))); simpl.
  - lia.
  - destruct (Z.leb_spec (month d + 1) 12); simpl.
    + pose proof (month_length_bounds (month d + 1) (year d)). lia.
    + pose proof (month_length_bounds 1 (u16 (year d + 1))). lia.
Qed.

(** C5. The date invariant (1 <= month <= 12 and 1 <= day <= length of the
    month under the leap-year rule) is kept by both operations that write
    the date.  From a date that satisfies it, the day-rollover callback
    completes, performs the rollover algorithm, and leaves a date that
    satisfies it; [systime_SetDate] completes on every argument, stores the
    argument only if it satisfies the invariant, and otherwise leaves the
    stored date as it was. *)
Theorem date_invariant_preserved (t : systime_t) :
  date_inv (date t) ->
  (exists t', systime_IncDate_callback t = Ok t' /\
              date t' = rollover (date t) /\ date_inv (date t')) /\
  (forall d, exists ok t',
      systime_SetDate d t = Ok (ok, t') /\
      date_inv (date t') /\
      (ok = true -> date t' = d) /\ (ok = false -> t' = t)).
Proof.
  intros Hinv. split.
  - exists (set_date (rollover (date t)) t).
    split; [now apply IncDate_callback_rollover |].
    split; [reflexivity |]. simpl. now apply rollover_inv.
  - intros d.
    destruct (systime_SetDate_spec d t) as (ok & Heq & Hok).
    exists ok, (if ok then set_date d t else t).
    split; [exact Heq |]. destruct ok; simpl.
    + pose proof (proj1 Hok eq_refl) as (H1 & H2 & _).
      split; [split; assumption |]. split; [reflexivity | discriminate].
    + split; [exact Hinv |]. split; [discriminate | reflexivity].
Qed.

Lemma date_invariant_preserved_witness :
  date_inv (date (set_date (mk_date 2023 12 31) systime_init)) /\
  exists t',
    systime_IncDate_callback (set_date (mk_date 2023 12 31) systime_init) = Ok t' /\
    date t' = rollover (date (set_date (mk_date 2023 12 31) systime_init)) /\
    date_inv (date t').
Proof.
  assert (H : date_inv (date (set_date (mk_date 2023 12 31) systime_init)))
    by (unfold date_inv; simpl; lia).
  split; [exact H |].
  exact (proj1 (date_invariant_preserved _ H)).
Defined.

(** * Query handler *)

Lemma index_in {A : Type} (a : list A) (i : Z) :
  0 <= i < Z.of_nat (length a) -> exists x, index a i = Ok x /\ In x a.
Proof.
  intros Hi. unfold index.
  destruct (Z.leb_spec 0 i), (Z.ltb_spec i (Z.of_nat (length a))); try lia.
  simpl. destruct (a !! Z.to_nat i) as [x |] eqn:E.
  - exists x. split; [reflexivity |].
    apply list_elem_of_In. eapply list_elem_of_lookup_2. exact E.
  - apply lookup_ge_None in E. lia.
Qed.

Lemma memcmp_unknown_month (month_str : list ascii) (name : string) :
  In name MONTHS ->
  take 3 month_str <> list_ascii_of_string name ->
  memcmp month_str (list_ascii_of_string name) 3 = true.
Proof.
  intros Hin Hne. unfold memcmp.
  assert (Ht : take 3 (list_ascii_of_string name) = list_ascii_of_string name).
  { unfold MONTHS in Hin. simpl in Hin.
    repeat (destruct Hin as [<- | Hin]; [reflexivity |]). contradiction. }
  rewrite Ht. rewrite bool_decide_eq_false_2 by exact Hne. reflexivity.
Qed.

Lemma FindMonthValue_loop_unknown (month_str : list ascii) :
  (forall name, In name MONTHS ->
     take 3 month_str <> list_ascii_of_string name) ->
  forall (n : nat) (i : Z),
    0 <= i -> i + Z.of_nat n = 12 ->
    FindMonthValue_loop month_str n i = Ok 12.
Proof.
  intros Hno n. induction n as [| n IH]; intros i Hi Hsum.
  - simpl. f_equal. lia.
  - cbn [FindMonthValue_loop].
    destruct (index_in MONTHS i) as (name & Hidx & Hin);
      [change (Z.of_nat (length MONTHS)) with 12; lia |].
    rewrite Hidx. cbn [mbind result_bind].
    rewrite memcmp_unknown_month by auto.
    apply IH; lia.
Qed.

Lemma systime_SetDate_month_13 (y d : Z) (t : systime_t) :
  systime_SetDate (mk_date y 13 d) t = Ok (false, t).
Proof.
  unfold systime_SetDate. simpl.
  destruct (y <? 9999); reflexivity.
Qed.

(** C7. A month string whose first three bytes match none of the twelve
    table entries makes [FindMonthValue] return 12; the month handed to
    [systime_SetDate] is then 13, which it refuses, so [SetDate] fails on
    every argument that scans to such a month and leaves the whole state,
    the stored date included, as it was. *)
Theorem unknown_month_never_sets_date (month_str : list ascii) :
  (forall name, In name MONTHS ->
     take 3 month_str <> list_ascii_of_string name) ->
  FindMonthValue month_str = Ok 12 /\
  (forall y d t, systime_SetDate (mk_date y (u8 (12 + 1)) d) t = Ok (false, t)) /\
  (forall new_date_str scan_res d y m,
     sscanf_date new_date_str = (scan_res, (d, month_str, y)) ->
     SetDate new_date_str m = Ok (false, m)).
Proof.
  intros Hno.
  assert (Hfind : FindMonthValue month_str = Ok 12).
  { unfold FindMonthValue.
    rewrite (FindMonthValue_loop_unknown month_str Hno)
      by first [lia | reflexivity].
    reflexivity. }
  split; [exact Hfind |]. split.
  - intros y d t. apply systime_SetDate_month_13.
  - intros s scan_res d y m Hscan. unfold SetDate.
    rewrite Hscan, Hfind. cbn [mbind result_bind].
    change (u8 (12 + 1)) with 13.
    destruct (scan_res =? VALID_DATE_SCAN); [| reflexivity].
    rewrite systime_SetDate_month_13. reflexivity.
Qed.

(** Away from the carry thresholds the displayed arm time is the sum of
    the two clocks: the display is wrong only when a field sum, with its
    incoming carry, is exactly 10, 60 or 60. *)
Lemma SetAlarm_arm_time_off_threshold (a b : clock_t) :
  clock_in_range a -> clock_in_range b ->
  t_sec a + t_sec b <> 10 ->
  sec a + sec b + (if 10 <? t_sec a + t_sec b then 1 else 0) <> 60 ->
  min a + min b +
    (if 60 <? sec a + sec b + (if 10 <? t_sec a + t_sec b then 1 else 0)
     then 1 else 0) <> 60 ->
  SetAlarm_arm_time a b = arm_time_expected a b.
Proof.
  intros Ha Hb Ht Hs Hm.
  unfold arm_time_expected.
  rewrite !ConvertClock_value by now apply clock_in_range_wf.
  destruct a as [ha ma sa ta], b as [hb mb sb tb].
  unfold clock_in_range in Ha, Hb. cbn [hour min sec t_sec] in *.
  unfold SetAlarm_arm_time, TSEC_IN_DAY, TSEC_IN_HOUR, TSEC_IN_MIN,
    TSEC_IN_SEC, SEC_IN_MIN, MIN_IN_HOUR, HOUR_IN_DAY.
  cbn [hour min sec t_sec].
  change (10 * 60 * 60 * 24) with 864000.
  assert (Hmod : forall h, 0 <= h mod 24 < 24)
    by (intros h; apply Z.mod_pos_bound; reflexivity).
  repeat first
    [ match goal with
      | |- context [u8 ?x] =>
          rewrite (u8_small x) by (change (2 ^ 8) with 256; lia)
      end
    | match goal with
      | |- context [u8 (?h mod 24)] =>
          rewrite (u8_small (h mod 24))
            by (change (2 ^ 8) with 256; pose proof (Hmod h); lia)
      end
    | match goal with
      | |- context [?c <? ?x] => destruct (Z.ltb_spec c x)
      end ].
  all: repeat match goal with
              | H : context [?c <? ?x] |- _ =>
                  destruct (Z.ltb_spec c x); try lia
              end.
  all: match goal with
       | |- mk_clock (?h mod 24) ?m ?s ?t = _ =>
           pose proof (Hmod h) as Hh;
           pose proof (Z.div_mod h 24 ltac:(lia)) as Hq;
           rewrite <- (ConvertTickCounter_ConvertClock (mk_clock (h mod 24) m s t))
             by (unfold clock_in_range; cbn [hour min sec t_sec]; lia);
           f_equal;
           rewrite ConvertClock_value
             by (unfold clock_wf, is_u8; cbn [hour min sec t_sec];
                 change (2 ^ 8) with 256; lia);
           cbn [hour min sec t_sec];
           apply Z.mod_unique with (q := h / 24); lia
       end.
Qed.

(** C6 (the code departs from the claim). One tick before midnight, with
    the alarm argument 00:00:00.1, the tenth-second sum is exactly 10; the
    carry test is [10 > 10], so no carry is taken and [SetAlarm] prints
    23:59:59.10, where the current time plus the entered time, with the
    carries taken, is 00:00:00.0. *)
Theorem SetAlarm_display_at_carry_threshold (alarm_str : string) (m : monitor_t) :
  sscanf_clock alarm_str = (VALID_ALARM_SCAN, mk_clock 0 0 0 1) ->
  counter_value (counter (systick (time m))) = 863999 ->
  systime_GetTime (time m) = mk_clock 23 59 59 9 /\
  arm_time_expected (mk_clock 0 0 0 1) (systime_GetTime (time m))
    = mk_clock 0 0 0 0 /\
  SetAlarm_arm_time (mk_clock 0 0 0 1) (systime_GetTime (time m))
    = mk_clock 23 59 59 10 /\
  uart (snd (SetAlarm alarm_str m))
    = (uart m ++ ["Alarm at "; "23:59:59.10"; (" " ++ NL)%string])%list.
Proof.
  intros Hscan Hnow.
  assert (Hget : systime_GetTime (time m) = mk_clock 23 59 59 9)
    by (unfold systime_GetTime; rewrite Hnow; reflexivity).
  split; [exact Hget |]. rewrite Hget.
  split; [reflexivity |]. split; [reflexivity |].
  unfold SetAlarm. rewrite Hscan. cbn [Z.eqb VALID_ALARM_SCAN VALID_TIME_SCAN Pos.eqb].
  cbn [systime_SetAlarm]. unfold UART0_puts, set_time. cbn [uart time snd].
  unfold systime_GetTime, set_countdown. cbn [systick counter].
  rewrite Hnow. rewrite <- !app_assoc. reflexivity.
Qed.

(** C10. When [sscanf] converts all four fields of the alarm argument,
    [SetAlarm] hands the clock to [systime_SetAlarm] without any range
    check: it returns true and the countdown is enabled with the converted
    clock as target, whatever the fields are.  [SetTime] on the same
    argument fails, leaving the state as it was, when a field is out of
    range. *)
Theorem SetAlarm_no_range_check (alarm_str : string) (c : clock_t) (m : monitor_t) :
  sscanf_clock alarm_str = (VALID_ALARM_SCAN, c) ->
  fst (SetAlarm alarm_str m) = true /\
  fst (systime_SetAlarm c cb_Alarm (time m)) = true /\
  countdown (systick (time (snd (SetAlarm alarm_str m))))
    = mk_countdown true (systime_ConvertClock c) (Some cb_Alarm) /\
  (clock_wf c -> ~ clock_in_range c -> SetTime alarm_str m = (false, m)).
Proof.
  intros Hscan. unfold SetAlarm, SetTime. rewrite Hscan.
  cbn [Z.eqb VALID_ALARM_SCAN VALID_TIME_SCAN Pos.eqb].
  repeat split.
  intros Hwf Hout.
  destruct (systime_SetTime c (time m)) as [ok t] eqn:E.
  destruct ok; [| reflexivity].
  exfalso. apply Hout.
  destruct Hwf as (Hh & Hm & Hs & Ht). unfold is_u8 in *.
  unfold systime_SetTime, TSEC_IN_SEC, SEC_IN_MIN, MIN_IN_HOUR, HOUR_IN_DAY in E.
  unfold clock_in_range.
  destruct (Z.ltb_spec (t_sec c) 10), (Z.ltb_spec (sec c) 60),
    (Z.ltb_spec (min c) 60), (Z.ltb_spec (hour c) 24);
    simpl in E; try discriminate; lia.
Qed.

Lemma cursor_to_end_cursor (n : nat) (m : monitor_t) :
  cursor (cursor_to_end n m) = cursor m + Z.of_nat n.
Proof.
  revert m. induction n as [| n IH]; intros m.
  - simpl. lia.
  - cbn [cursor_to_end]. rewrite IH. unfold cursor. simpl. lia.
Qed.

Lemma cursor_to_end_entry (n : nat) (m : monitor_t) :
  entry_length (cursor_to_end n m) = entry_length m.
Proof.
  revert m. induction n as [| n IH]; intros m.
  - reflexivity.
  - cbn [cursor_to_end]. rewrite IH. reflexivity.
Qed.

Ltac buffer_fields :=
  unfold buffer_inv, cursor, entry_length, set_wr_ptr, set_entry_ptr,
    set_query, UART0_puts in *;
  cbn [query buffer wr_ptr entry_ptr data time uart] in *.

Lemma CursorCodeCheck_inv (rx_buf rx' : rx_queue) (m m' : monitor_t) :
  buffer_inv m -> CursorCodeCheck rx_buf m = Ok (rx', m') -> buffer_inv m'.
Proof.
  intros Hinv. unfold CursorCodeCheck.
  destruct rx_buf as [| sqbkrt [| code rest]]; try discriminate.
  destruct (Ascii.eqb code "A").
  { intros [= <- <-]. buffer_fields. lia. }
  destruct (Ascii.eqb code "B").
  { intros [= <- <-]. unfold buffer_inv.
    rewrite cursor_to_end_cursor, cursor_to_end_entry.
    buffer_fields. lia. }
  destruct (Ascii.eqb code "C").
  { destruct (Z.ltb_spec (cursor m) (entry_length m));
      intros [= <- <-]; buffer_fields; lia. }
  destruct (Ascii.eqb code "D").
  { destruct (Z.ltb_spec 0 (cursor m));
      intros [= <- <-]; buffer_fields; lia. }
  intros [= <- <-]. exact Hinv.
Qed.










Lemma QueryHandler_Update_inv (rx_buf rx' : rx_queue) (m m' : monitor_t) :
  capacity < 2 ^ 32 ->
  buffer_inv m ->
  QueryHandler_Update rx_buf m = Ok (rx', m') -> buffer_inv m'.
Proof.
  intros Hcap Hinv. revert rx' m'.
  intros rx' m'. unfold QueryHandler_Update.
  destruct rx_buf as [| c rest]; [discriminate |].
  destruct (Ascii.eqb c BS || Ascii.eqb c DEL).
  { destruct (Z.ltb_spec 0 (cursor m)); intros [= <- <-].
    - buffer_fields. unfold u32.
      rewrite Z.mod_small by lia. lia.
    - buffer_fields. lia. }
  destruct (Ascii.eqb c CR || Ascii.eqb c LF).
  { destruct (QueryCheck m) as [r | |]; cbn [mbind result_bind];
      try discriminate.
    intros [= <- <-]. buffer_fields. lia. }
  destruct (Ascii.eqb c ESC).
  { apply CursorCodeCheck_inv. exact Hinv. }
  unfold enqueuec_s.
  destruct (Z.leb_spec 0 (wr_ptr (buffer (query m)))),
    (Z.ltb_spec (wr_ptr (buffer (query m))) capacity);
    cbn [andb]; buffer_fields;
    match goal with
    | |- context [?a <? ?b] => destruct (Z.ltb_spec a b)
    end;
    intros [= <- <-]; cbn [query buffer wr_ptr entry_ptr]; lia.
Qed.


Lemma main_loop_inv (n : nat) :
  capacity < 2 ^ 32 ->
  forall (rx_buf rx' : rx_queue) (m m' : monitor_t),
    buffer_inv m ->
    main_loop n rx_buf m = Ok (rx', m') -> buffer_inv m'.
Proof.
  intros Hcap. induction n as [| n IH]; intros rx_buf rx' m m' Hinv.
  - intros [= <- <-]. exact Hinv.
  - cbn [main_loop]. destruct rx_buf as [| c rest]; [now apply IH |].
    destruct (QueryHandler_Update (c :: rest) m) as [[rx1 m1] | |] eqn:E;
      cbn [mbind result_bind]; try discriminate.
    apply IH. eapply QueryHandler_Update_inv; eauto.
Qed.



(** C9. In every buffer state the right-arrow handler moves the cursor
    forward by one exactly when cursor < entry_length, without output;
    otherwise the cursor stays and one cursor-left sequence is sent.  The
    left-arrow handler moves the cursor back by one exactly when
    cursor > 0, without output; otherwise the cursor stays and one
    cursor-right sequence is sent.  Nothing else in the state changes. *)
Theorem arrow_keys_move_or_compensate (sqbkrt : ascii) (rest : rx_queue)
    (m : monitor_t) :
  (exists m',
     CursorCodeCheck (sqbkrt :: "C"%char :: rest) m = Ok (rest, m') /\
     entry_length m' = entry_length m /\
     data (buffer (query m')) = data (buffer (query m)) /\
     time m' = time m /\
     (cursor m' = cursor m + 1 <-> cursor m < entry_length m) /\
     (cursor m < entry_length m -> uart m' = uart m) /\
     (~ cursor m < entry_length m ->
        cursor m' = cursor m /\ uart m' = (uart m ++ [CURSOR_LEFT])%list)) /\
  (exists m',
     CursorCodeCheck (sqbkrt :: "D"%char :: rest) m = Ok (rest, m') /\
     entry_length m' = entry_length m /\
     data (buffer (query m')) = data (buffer (query m)) /\
     time m' = time m /\
     (cursor m' = cursor m - 1 <-> 0 < cursor m) /\
     (0 < cursor m -> uart m' = uart m) /\
     (~ 0 < cursor m ->
        cursor m' = cursor m /\ uart m' = (uart m ++ [CURSOR_RIGHT])%list)).
Proof.
  split.
  - unfold CursorCodeCheck. cbn [Ascii.eqb Bool.eqb].
    destruct (Z.ltb_spec (cursor m) (entry_length m)).
    + exists (set_wr_ptr (cursor m + 1) m).
      repeat split; buffer_fields; intros; try reflexivity; lia.
    + exists (UART0_puts CURSOR_LEFT m).
      repeat split; buffer_fields; intros; try reflexivity; lia.
  - unfold CursorCodeCheck. cbn [Ascii.eqb Bool.eqb].
    destruct (Z.ltb_spec 0 (cursor m)).
    + exists (set_wr_ptr (cursor m - 1) m).
      repeat split; buffer_fields; intros; try reflexivity; lia.
    + exists (UART0_puts CURSOR_RIGHT m).
      repeat split; buffer_fields; intros; try reflexivity; lia.
Qed.

(** * Further properties of the time engine *)

Lemma ConvertTickCounter_fields (t : Z) :
  0 <= t < 9216000 ->
  systime_ConvertTickCounter t =
    mk_clock (t / 36000) (t mod 36000 / 600) (t mod 600 / 10) (t mod 10).
Proof.
  intros Ht.
  unfold systime_ConvertTickCounter, TSEC_IN_HOUR, TSEC_IN_MIN, MIN_IN_HOUR,
    SEC_IN_MIN, TSEC_IN_SEC.
  change (10 * 60 * 60) with 36000. change (10 * 60) with 600.
  assert (Hh : u8 (t / 36000) = t / 36000).
  { apply u8_small. change (2 ^ 8) with 256.
    Z.div_mod_to_equations. lia. }
  rewrite Hh.
  assert (H1 : u32 (t - 36000 * (t / 36000)) = t mod 36000).
  { rewrite u32_small by (Z.div_mod_to_equations; lia).
    Z.div_mod_to_equations. lia. }
  rewrite H1.
  assert (Hm : u8 (t mod 36000 / 600) = t mod 36000 / 600).
  { apply u8_small. change (2 ^ 8) with 256.
    Z.div_mod_to_equations. lia. }
  rewrite Hm.
  assert (H2 : u32 (t mod 36000 - 600 * (t mod 36000 / 600)) = t mod 600).
  { rewrite u32_small by (Z.div_mod_to_equations; lia).
    Z.div_mod_to_equations. lia. }
  rewrite H2.
  assert (Hs : u8 (t mod 600 / 10) = t mod 600 / 10).
  { apply u8_small. change (2 ^ 8) with 256.
    Z.div_mod_to_equations. lia. }
  rewrite Hs.
  assert (H3 : u32 (t mod 600 - 10 * (t mod 600 / 10)) = t mod 10).
  { rewrite u32_small by (Z.div_mod_to_equations; lia).
    Z.div_mod_to_equations. lia. }
  rewrite H3.
  rewrite (u8_small (t mod 10)) by
    (change (2 ^ 8) with 256; Z.div_mod_to_equations; lia).
  reflexivity.
Qed.

(** X1. Every tick count below 256 hours converts to a clock whose minute,
    second and tenth-second are in range and whose hour is the number of
    whole hours; converting that clock back gives the tick count.  The
    clock is a valid time of day exactly when the count is below one day. *)
Theorem ConvertTickCounter_decomposes (t : Z) :
  0 <= t < 9216000 ->
  systime_ConvertClock (systime_ConvertTickCounter t) = t /\
  hour (systime_ConvertTickCounter t) = t / 36000 /\
  0 <= min (systime_ConvertTickCounter t) < 60 /\
  0 <= sec (systime_ConvertTickCounter t) < 60 /\
  0 <= t_sec (systime_ConvertTickCounter t) < 10 /\
  (clock_in_range (systime_ConvertTickCounter t) <-> t < TSEC_IN_DAY).
Proof.
  intros Ht. rewrite (ConvertTickCounter_fields t Ht).
  unfold clock_in_range, TSEC_IN_DAY, TSEC_IN_HOUR, TSEC_IN_MIN,
    MIN_IN_HOUR, SEC_IN_MIN, TSEC_IN_SEC, HOUR_IN_DAY.
  cbn [hour min sec t_sec].
  split.
  { rewrite ConvertClock_value.
    - cbn [hour min sec t_sec]. Z.div_mod_to_equations. lia.
    - unfold clock_wf, is_u8. cbn [hour min sec t_sec].
      change (2 ^ 8) with 256. Z.div_mod_to_equations. lia. }
  split; [reflexivity |].
  repeat split; Z.div_mod_to_equations; lia.
Qed.

Lemma ConvertTickCounter_decomposes_witness :
  0 <= 863999 < 9216000 /\
  systime_ConvertClock (systime_ConvertTickCounter 863999) = 863999 /\
  hour (systime_ConvertTickCounter 863999) = 863999 / 36000.
Proof.
  assert (H : 0 <= 863999 < 9216000) by lia.
  pose proof (ConvertTickCounter_decomposes 863999 H) as (H1 & H2 & _).
  split; [exact H |]. split; [exact H1 | exact H2].
Defined.

Lemma ConvertClock_bound (c : clock_t) :
  clock_in_range c -> 0 <= systime_ConvertClock c < TSEC_IN_DAY.
Proof.
  intros Hr. rewrite ConvertClock_value by now apply clock_in_range_wf.
  unfold clock_in_range in Hr. unfold TSEC_IN_DAY, TSEC_IN_HOUR, TSEC_IN_MIN,
    MIN_IN_HOUR, SEC_IN_MIN, TSEC_IN_SEC, HOUR_IN_DAY. lia.
Qed.

(** X2. On valid clocks [systime_ConvertClock] is one-to-one and stays
    below one day of ticks, so a successful [systime_SetTime] never leaves
    the tick counter at or beyond the day comparator, and two different
    valid times never share a counter value. *)
Theorem ConvertClock_injective_below_day (c1 c2 : clock_t) (t : systime_t) :
  clock_in_range c1 -> clock_in_range c2 ->
  0 <= counter_value (counter (systick (snd (systime_SetTime c1 t))))
    < TSEC_IN_DAY /\
  (systime_ConvertClock c1 = systime_ConvertClock c2 -> c1 = c2).
Proof.
  intros H1 H2. split.
  - unfold systime_SetTime, TSEC_IN_SEC, SEC_IN_MIN, MIN_IN_HOUR, HOUR_IN_DAY.
    unfold clock_in_range in H1.
    destruct (Z.ltb_spec (t_sec c1) 10), (Z.ltb_spec (sec c1) 60),
      (Z.ltb_spec (min c1) 60), (Z.ltb_spec (hour c1) 24); try lia.
    cbn [andb snd set_counter_value systick counter counter_value].
    apply ConvertClock_bound. exact H1.
  - intros Heq.
    rewrite <- (ConvertTickCounter_ConvertClock c1 H1).
    rewrite <- (ConvertTickCounter_ConvertClock c2 H2).
    now rewrite Heq.
Qed.

Lemma ConvertClock_injective_below_day_witness :
  0 <= counter_value (counter (systick
         (snd (systime_SetTime (mk_clock 23 59 59 9) systime_init))))
    < TSEC_IN_DAY.
Proof.
  refine (proj1 (ConvertClock_injective_below_day
                   (mk_clock 23 59 59 9) (mk_clock 0 0 0 0) systime_init _ _));
    unfold clock_in_range; simpl; lia.
Defined.

(** X3. The three setters act on disjoint parts of the engine: setting the
    time, the date and the alarm in either order gives the same state, the
    time read back is not affected by [systime_SetDate], and the date read
    back is not affected by [systime_SetTime] or [systime_SetAlarm]. *)
Theorem systime_setters_commute (c a : clock_t) (cb : callback) (d : date_t)
    (t : systime_t) :
  systime_run [call_SetTime c; call_SetDate d] t
    = systime_run [call_SetDate d; call_SetTime c] t /\
  systime_run [call_SetAlarm a cb; call_SetDate d] t
    = systime_run [call_SetDate d; call_SetAlarm a cb] t /\
  systime_run [call_SetTime c; call_SetAlarm a cb] t
    = systime_run [call_SetAlarm a cb; call_SetTime c] t /\
  (exists t', systime_run [call_SetDate d] t = Ok t' /\
              systime_GetTime t' = systime_GetTime t) /\
  systime_GetDate (snd (systime_SetTime c t)) = systime_GetDate t /\
  systime_GetDate (snd (systime_SetAlarm a cb t)) = systime_GetDate t.
Proof.
  assert (Hd : forall t0, systime_SetDate d t0
             = Ok (bool_decide (date_valid d),
                   if bool_decide (date_valid d) then set_date d t0 else t0)).
  { intros t0. destruct (systime_SetDate_spec d t0) as (ok & Heq & Hok).
    rewrite Heq. destruct ok.
    - rewrite bool_decide_eq_true_2 by (now apply Hok). reflexivity.
    - rewrite bool_decide_eq_false_2; [reflexivity |].
      intros Hv. apply Hok in Hv. discriminate. }
  cbn [systime_run systime_do mbind result_bind].
  rewrite !Hd. cbn [mbind result_bind snd].
  unfold systime_SetTime, systime_SetAlarm.
  destruct (bool_decide (date_valid d)),
    ((t_sec c <? TSEC_IN_SEC) && (sec c <? SEC_IN_MIN) &&
     (min c <? MIN_IN_HOUR) && (hour c <? HOUR_IN_DAY));
    cbn [snd]; repeat split; eauto.
Qed.

(** X4. Arming the alarm replaces a previous alarm entirely; clearing it
    disables the countdown but keeps the stored target and callback;
    clearing twice is the same as clearing once; neither
    [systime_SetAlarm] nor [systime_ClearAlarm] changes the time or the
    date read back, nor the tick counter and its comparator. *)
Theorem alarm_rearm_and_clear (c1 c2 : clock_t) (cb1 cb2 : callback)
    (t : systime_t) :
  systime_SetAlarm c2 cb2 (snd (systime_SetAlarm c1 cb1 t))
    = systime_SetAlarm c2 cb2 t /\
  countdown (systick (systime_ClearAlarm (snd (systime_SetAlarm c1 cb1 t))))
    = mk_countdown false (systime_ConvertClock c1) (Some cb1) /\
  systime_ClearAlarm (systime_ClearAlarm t) = systime_ClearAlarm t /\
  systime_SetAlarm c2 cb2 (systime_ClearAlarm t) = systime_SetAlarm c2 cb2 t /\
  systime_GetTime (systime_ClearAlarm t) = systime_GetTime t /\
  systime_GetDate (systime_ClearAlarm t) = systime_GetDate t /\
  systime_GetTime (snd (systime_SetAlarm c1 cb1 t)) = systime_GetTime t /\
  systime_GetDate (snd (systime_SetAlarm c1 cb1 t)) = systime_GetDate t /\
  counter (systick (snd (systime_SetAlarm c1 cb1 t))) = counter (systick t) /\
  counter (systick (systime_ClearAlarm t)) = counter (systick t).
Proof. repeat split. Qed.

Lemma days_pass_rollover (n : nat) :
  forall t, date_inv (date t) ->
    days_pass n t = Ok (set_date (Nat.iter n rollover (date t)) t).
Proof.
  induction n as [| n IH]; intros t Hinv.
  - destruct t; reflexivity.
  - cbn [days_pass]. rewrite IncDate_callback_rollover by exact Hinv.
    cbn [mbind result_bind].
    rewrite IH by (cbn [date set_date]; now apply rollover_inv).
    rewrite Nat.iter_succ_r. reflexivity.
Qed.

Lemma rollover_within_month (k : nat) (d : date_t) :
  day d + Z.of_nat k <= month_length (month d) (year d) ->
  Nat.iter k rollover d = mk_date (year d) (month d) (day d + Z.of_nat k).
Proof.
  induction k as [| k IH]; intros Hk.
  - destruct d as [y m dd]. simpl. f_equal. lia.
  - rewrite Nat.iter_succ, IH by lia. unfold rollover. cbn [year month day].
    destruct (Z.leb_spec (day d + Z.of_nat k + 1)
                (month_length (month d) (year d))); [| lia].
    f_equal. lia.
Qed.

Lemma rollover_whole_month (y m : Z) :
  1 <= m <= 12 ->
  Nat.iter (Z.to_nat (month_length m y)) rollover (mk_date y m 1)
    = if m <? 12 then mk_date y (m + 1) 1 else mk_date (u16 (y + 1)) 1 1.
Proof.
  intros Hm. pose proof (month_length_bounds m y) as Hb.
  replace (Z.to_nat (month_length m y))
    with (S (Z.to_nat (month_length m y - 1))) by lia.
  rewrite Nat.iter_succ.
  rewrite rollover_within_month by (cbn [year month day]; lia).
  unfold rollover. cbn [year month day].
  destruct (Z.leb_spec (1 + Z.of_nat (Z.to_nat (month_length m y - 1)) + 1)
              (month_length m y)); [lia |].
  destruct (Z.leb_spec (m + 1) 12), (Z.ltb_spec m 12); try lia; reflexivity.
Qed.

Lemma days_in_year_months (y : Z) :
  days_in_year y =
    (Z.to_nat (month_length 12 y) + (Z.to_nat (month_length 11 y) +
    (Z.to_nat (month_length 10 y) + (Z.to_nat (month_length 9 y) +
    (Z.to_nat (month_length 8 y) + (Z.to_nat (month_length 7 y) +
    (Z.to_nat (month_length 6 y) + (Z.to_nat (month_length 5 y) +
    (Z.to_nat (month_length 4 y) + (Z.to_nat (month_length 3 y) +
    (Z.to_nat (month_length 2 y) + Z.to_nat (month_length 1 y))))))))))))%nat.
Proof.
  unfold days_in_year, month_length.
  destruct (decide (leap_year y)); reflexivity.
Qed.

(** X5. Started on 1 January of year [y], the day-rollover callback reaches
    1 January of the next year after exactly 366 firings when [y] is a leap
    year and 365 otherwise, completing every time; the year is a
    [uint16_t], so the year after 65535 is 0. *)
Theorem year_of_days_reaches_new_year (t : systime_t) (y : Z) :
  date t = mk_date y 1 1 ->
  days_pass (days_in_year y) t = Ok (set_date (mk_date (u16 (y + 1)) 1 1) t) /\
  (0 <= y < 65535 -> u16 (y + 1) = y + 1).
Proof.
  intros Hd. split.
  - rewrite days_pass_rollover
      by (rewrite Hd; unfold date_inv; cbn [year month day];
          pose proof (month_length_bounds 1 y); lia).
    rewrite Hd. do 2 f_equal.
    rewrite days_in_year_months.
    rewrite !Nat.iter_add.
    repeat (rewrite rollover_whole_month by lia;
            cbn [Z.ltb Z.compare Pos.compare Pos.compare_cont Z.add Pos.add
                 Pos.succ]).
    reflexivity.
  - intros Hy. unfold u16. apply Z.mod_small. change (2 ^ 16) with 65536. lia.
Qed.

Lemma year_of_days_reaches_new_year_witness :
  days_pass (days_in_year 2024) (set_date (mk_date 2024 1 1) systime_init)
    = Ok (set_date (mk_date (u16 (2024 + 1)) 1 1)
            (set_date (mk_date 2024 1 1) systime_init)).
Proof.
  exact (proj1 (year_of_days_reaches_new_year
                  (set_date (mk_date 2024 1 1) systime_init) 2024 eq_refl)).
Defined.

(** X6. From a date that [systime_SetDate] would accept (year in
    [0, 9998]) the day-rollover callback produces a date that
    [systime_SetDate] would accept again, except on 31 December 9998, where
    it moves on to year 9999, which [systime_SetDate] refuses. *)
Theorem IncDate_callback_leaves_settable_range (t : systime_t) :
  date_valid (date t) -> 0 <= year (date t) ->
  exists t',
    systime_IncDate_callback t = Ok t' /\
    (date_valid (date t') <->
     ~ (year (date t) = 9998 /\ month (date t) = 12 /\ day (date t) = 31)) /\
    (year (date t) = 9998 /\ month (date t) = 12 /\ day (date t) = 31 ->
     date t' = mk_date 9999 1 1 /\
     systime_SetDate (date t') t = Ok (false, t)).
Proof.
  intros (Hm & Hd & Hy) Hy0.
  exists (set_date (rollover (date t)) t).
  split; [apply IncDate_callback_rollover; split; assumption |].
  cbn [date set_date].
  destruct (date t) as [y mo dy]. cbn [year month day] in *.
  pose proof (month_length_bounds mo y) as Hb.
  pose proof (month_length_bounds (mo + 1) y) as Hb1.
  pose proof (month_length_bounds 1 (y + 1)) as Hb2.
  assert (H12 : month_length 12 y = 31) by reflexivity.
  assert (Hu : u16 (y + 1) = y + 1)
    by (unfold u16; apply Z.mod_small; change (2 ^ 16) with 65536; lia).
  unfold rollover, date_valid. cbn [year month day].
  rewrite Hu.
  destruct (Z.leb_spec (dy + 1) (month_length mo y)); cbn [year month day];
    [| destruct (Z.leb_spec (mo + 1) 12); cbn [year month day]].
  - split.
    + split; [intros _ (_ & -> & ->); lia | intros _; lia].
    + intros (_ & -> & ->). lia.
  - split; [split; lia | lia].
  - assert (mo = 12) by lia. subst mo.
    assert (dy = 31) by lia. subst dy.
    split.
    + split; [lia |]. intros Hne.
      assert (y <> 9998) by (intros ->; apply Hne; repeat split). lia.
    + intros (-> & _ & _). split; reflexivity.
Qed.

Lemma IncDate_callback_leaves_settable_range_witness :
  exists t',
    systime_IncDate_callback (set_date (mk_date 9998 12 31) systime_init) = Ok t' /\
    date t' = mk_date 9999 1 1 /\
    systime_SetDate (date t') (set_date (mk_date 9998 12 31) systime_init)
      = Ok (false, set_date (mk_date 9998 12 31) systime_init).
Proof.
  assert (Hv : date_valid (date (set_date (mk_date 9998 12 31) systime_init)))
    by (unfold date_valid; simpl; lia).
  assert (Hy : 0 <= year (date (set_date (mk_date 9998 12 31) systime_init)))
    by (simpl; lia).
  destruct (IncDate_callback_leaves_settable_range _ Hv Hy)
    as (t' & Hcb & _ & Hlast).
  exists t'. split; [exact Hcb |].
  apply Hlast. repeat split.
Defined.





(** * Further properties of the query handler *)

Lemma index_range {A : Type} (a : list A) (i : Z) (x : A) :
  index a i = Ok x -> 0 <= i < Z.of_nat (length a).
Proof.
  unfold index.
  destruct (Z.leb_spec 0 i), (Z.ltb_spec i (Z.of_nat (length a)));
    cbn [andb]; try discriminate. lia.
Qed.

Lemma memcmp_month_false (month_str : list ascii) (name : string) :
  In name MONTHS ->
  (memcmp month_str (list_ascii_of_string name) 3 = false <->
   take 3 month_str = list_ascii_of_string name).
Proof.
  intros Hin. unfold memcmp.
  assert (Ht : take 3 (list_ascii_of_string name) = list_ascii_of_string name).
  { unfold MONTHS in Hin. simpl in Hin.
    repeat (destruct Hin as [<- | Hin]; [reflexivity |]). contradiction. }
  rewrite Ht, negb_false_iff, bool_decide_eq_true. reflexivity.
Qed.

Lemma FindMonthValue_loop_spec (month_str : list ascii) (n : nat) :
  forall i : Z,
    0 <= i -> i + Z.of_nat n = 12 ->
    exists r,
      FindMonthValue_loop month_str n i = Ok r /\ i <= r <= 12 /\
      (r < 12 -> exists name,
         index MONTHS r = Ok name /\
         take 3 month_str = list_ascii_of_string name) /\
      (forall j name, i <= j < r -> index MONTHS j = Ok name ->
         take 3 month_str <> list_ascii_of_string name).
Proof.
  induction n as [| n IH]; intros i Hi Hsum.
  - exists i. cbn [FindMonthValue_loop]. repeat split; try lia.
  - cbn [FindMonthValue_loop].
    destruct (index_in MONTHS i) as (name & Hidx & Hin);
      [change (Z.of_nat (length MONTHS)) with 12; lia |].
    rewrite Hidx. cbn [mbind result_bind].
    destruct (memcmp month_str (list_ascii_of_string name) 3) eqn:E.
    + destruct (IH (i + 1)) as (r & Hr & Hb & Hhit & Hmiss); [lia | lia |].
      exists r. split; [exact Hr |]. split; [lia |]. split; [exact Hhit |].
      intros j name' Hj Hj'. destruct (Z.eq_dec j i) as [-> | Hne].
      * rewrite Hidx in Hj'. injection Hj' as <-.
        intros Heq. apply (memcmp_month_false month_str name Hin) in Heq.
        congruence.
      * apply (Hmiss j name'); [lia | exact Hj'].
    + exists i. split; [reflexivity |]. split; [lia |]. split.
      * intros _. exists name. split; [exact Hidx |].
        now apply (memcmp_month_false month_str name Hin).
      * intros j name' Hj. lia.
Qed.

Lemma FindMonthValue_spec (month_str : list ascii) :
  exists r,
    FindMonthValue month_str = Ok r /\ 0 <= r <= 12 /\
    (r < 12 -> exists name,
       index MONTHS r = Ok name /\
       take 3 month_str = list_ascii_of_string name) /\
    (forall j name, 0 <= j < r -> index MONTHS j = Ok name ->
       take 3 month_str <> list_ascii_of_string name).
Proof.
  destruct (FindMonthValue_loop_spec month_str (Z.to_nat (MONTH_IN_YEAR - 0)) 0)
    as (r & Hr & Hb & Hhit & Hmiss); [lia | reflexivity |].
  exists r. unfold FindMonthValue. rewrite Hr. cbn [mbind result_bind].
  rewrite u8_small by (change (2 ^ 8) with 256; lia).
  repeat split; try lia; assumption.
Qed.

Lemma FindMonthValue_of_name (i : Z) (name : string) (rest : list ascii) :
  index MONTHS i = Ok name ->
  FindMonthValue (list_ascii_of_string name ++ rest) = Ok i.
Proof.
  intros Hidx. pose proof (index_range _ _ _ Hidx) as Hi.
  change (Z.of_nat (length MONTHS)) with 12 in Hi.
  assert (C : i = 0 \/ i = 1 \/ i = 2 \/ i = 3 \/ i = 4 \/ i = 5 \/ i = 6 \/
              i = 7 \/ i = 8 \/ i = 9 \/ i = 10 \/ i = 11) by lia.
  repeat (destruct C as [-> | C];
          [injection Hidx as <-; vm_compute; reflexivity |]).
  subst i. injection Hidx as <-. vm_compute. reflexivity.
Qed.

(** X8. [FindMonthValue] always completes with a value in [[0, 12]].  A
    value below 12 is the index of the first table entry equal to the first
    three bytes of the argument, no earlier entry matches, and each of the
    twelve abbreviations, followed by any bytes, is found at its own
    index. *)
Theorem FindMonthValue_finds_first_match (month_str : list ascii) :
  (exists r,
     FindMonthValue month_str = Ok r /\ 0 <= r <= 12 /\
     (r < 12 -> exists name,
        index MONTHS r = Ok name /\
        take 3 month_str = list_ascii_of_string name) /\
     (forall j name, 0 <= j < r -> index MONTHS j = Ok name ->
        take 3 month_str <> list_ascii_of_string name)) /\
  (forall i name,
     index MONTHS i = Ok name ->
     FindMonthValue (list_ascii_of_string name ++ month_str) = Ok i).
Proof.
  split; [apply FindMonthValue_spec |].
  intros i name. apply FindMonthValue_of_name.
Qed.

Lemma UART0_puts_uart (s : string) (m : monitor_t) :
  uart (UART0_puts s m) = (uart m ++ [s])%list.
Proof. reflexivity. Qed.

(** X9. When [sscanf] converts four fields and they form a valid time,
    [SetTime] succeeds, the time read back is that time, the date, the
    alarm and the edit buffer are untouched, and the confirmation it prints
    is exactly the text that [DisplayTime] prints afterwards. *)
Theorem SetTime_echo_matches_display (new_time_str : string) (c : clock_t)
    (m : monitor_t) :
  sscanf_clock new_time_str = (VALID_TIME_SCAN, c) ->
  clock_in_range c ->
  exists m',
    SetTime new_time_str m = (true, m') /\
    systime_GetTime (time m') = c /\
    date (time m') = date (time m) /\
    countdown (systick (time m')) = countdown (systick (time m)) /\
    query m' = query m /\
    uart m' = (uart m ++ [sprintf_clock c; (" " ++ NL)%string])%list /\
    uart (DisplayTime m')
      = (uart m' ++ [sprintf_clock c; (" " ++ NL)%string])%list.
Proof.
  intros Hscan Hr. unfold SetTime. rewrite Hscan.
  cbn [Z.eqb VALID_TIME_SCAN Pos.eqb].
  unfold systime_SetTime, TSEC_IN_SEC, SEC_IN_MIN, MIN_IN_HOUR, HOUR_IN_DAY.
  pose proof Hr as (Hh & Hm & Hs & Ht).
  destruct (Z.ltb_spec (t_sec c) 10), (Z.ltb_spec (sec c) 60),
    (Z.ltb_spec (min c) 60), (Z.ltb_spec (hour c) 24); try lia.
  cbn [andb]. eexists. split; [reflexivity |].
  assert (Hget : systime_GetTime
            (set_counter_value (systime_ConvertClock c) (time m)) = c).
  { unfold systime_GetTime. cbn [set_counter_value systick counter counter_value].
    now apply ConvertTickCounter_ConvertClock. }
  split; [exact Hget |].
  unfold DisplayTime.
  cbn [UART0_puts set_time time query uart set_counter_value date systick
       countdown].
  rewrite Hget. rewrite <- !app_assoc. repeat split.
Qed.

(** X10. When [sscanf] converts the three date fields, the month string
    starts with the abbreviation at index [i] of the table and day, month
    [i+1] and year form a valid date, [SetDate] succeeds, stores that date,
    leaves the time, the alarm and the edit buffer untouched, and prints
    exactly the text that [DisplayDate] prints afterwards. *)
Theorem SetDate_echo_matches_display (new_date_str : string) (d y i : Z)
    (name : string) (rest : list ascii) (m : monitor_t) :
  sscanf_date new_date_str
    = (VALID_DATE_SCAN, (d, (list_ascii_of_string name ++ rest)%list, y)) ->
  index MONTHS i = Ok name ->
  date_valid (mk_date y (i + 1) d) ->
  exists m',
    SetDate new_date_str m = Ok (true, m') /\
    systime_GetDate (time m') = mk_date y (i + 1) d /\
    systick (time m') = systick (time m) /\
    query m' = query m /\
    uart m' = (uart m ++ [sprintf_date d name y; (" " ++ NL)%string])%list /\
    exists m'',
      DisplayDate m' = Ok m'' /\
      uart m'' = (uart m' ++ [sprintf_date d name y; (" " ++ NL)%string])%list.
Proof.
  intros Hscan Hidx Hvalid. unfold SetDate. rewrite Hscan.
  rewrite (FindMonthValue_of_name i name rest Hidx).
  cbn [mbind result_bind Z.eqb VALID_DATE_SCAN Pos.eqb].
  pose proof (index_range _ _ _ Hidx) as Hi.
  change (Z.of_nat (length MONTHS)) with 12 in Hi.
  rewrite (u8_small (i + 1)) by (change (2 ^ 8) with 256; lia).
  destruct (systime_SetDate_spec (mk_date y (i + 1) d) (time m))
    as (ok & Heq & Hok).
  rewrite Heq. cbn [mbind result_bind fst snd].
  rewrite (proj2 Hok Hvalid).
  cbn [month day year]. replace (i + 1 - 1) with i by lia.
  rewrite Hidx. cbn [mbind result_bind].
  eexists. split; [reflexivity |].
  unfold DisplayDate, systime_GetDate.
  cbn [UART0_puts set_time time query uart set_date date systick month day year].
  replace (i + 1 - 1) with i by lia. rewrite Hidx. cbn [mbind result_bind].
  repeat split; try (rewrite <- !app_assoc; reflexivity).
  eexists. split; [reflexivity |].
  cbn [UART0_puts uart]. rewrite <- !app_assoc. reflexivity.
Qed.

(** X11. A set command whose argument does not scan to the full number of
    fields changes nothing and prints nothing: [SetTime] and [SetAlarm]
    return false when [sscanf] does not report 4 conversions, [SetDate]
    when it does not report 3, whatever was left in the destinations; the
    month lookup that [SetDate] performs before the test always completes. *)
Theorem set_commands_reject_bad_format (str : string) (m : monitor_t) :
  (fst (sscanf_clock str) <> VALID_TIME_SCAN ->
     SetTime str m = (false, m) /\ SetAlarm str m = (false, m)) /\
  (fst (sscanf_date str) <> VALID_DATE_SCAN -> SetDate str m = Ok (false, m)).
Proof.
  split.
  - unfold SetTime, SetAlarm. destruct (sscanf_clock str) as [scan_res c].
    cbn [fst]. intros Hne. change VALID_ALARM_SCAN with VALID_TIME_SCAN.
    destruct (Z.eqb_spec scan_res VALID_TIME_SCAN); [contradiction |].
    split; reflexivity.
  - unfold SetDate. destruct (sscanf_date str) as [scan_res [[d ms] y]].
    cbn [fst]. intros Hne.
    destruct (FindMonthValue_spec ms) as (r & Hr & _). rewrite Hr.
    cbn [mbind result_bind].
    destruct (Z.eqb_spec scan_res VALID_DATE_SCAN); [contradiction |].
    reflexivity.
Qed.

Lemma scan_while_bound (p : ascii -> bool) (d : list ascii) (n : nat) :
  forall i j : Z, scan_while p d n i = Ok j -> i <= j <= i + Z.of_nat n.
Proof.
  induction n as [| n IH]; intros i j; cbn [scan_while].
  - intros [= <-]. lia.
  - destruct (index d i) as [c | |]; cbn [mbind result_bind];
      try discriminate.
    destruct (p c).
    + intros H. apply IH in H. lia.
    + intros [= <-]. lia.
Qed.

Lemma store_inv (d d' : list ascii) (i : Z) (x : ascii) :
  store d i x = Ok d' ->
  0 <= i < Z.of_nat (length d) /\ d' = <[Z.to_nat i := x]> d.
Proof.
  unfold store.
  destruct (Z.leb_spec 0 i), (Z.ltb_spec i (Z.of_nat (length d)));
    cbn [andb]; try discriminate.
  intros [= <-]. split; [lia | reflexivity].
Qed.

Lemma command_effect_puts (s1 : string) (outs : list string)
    (m m' : monitor_t) :
  query m' = query m -> uart m' = (uart m ++ s1 :: outs)%list ->
  command_effect true m m'.
Proof.
  intros Hq Hu. split; [exact Hq |]. split; [discriminate |].
  intros _. exists (s1 :: outs). split; [discriminate | exact Hu].
Qed.

Lemma command_effect_refl (m : monitor_t) : command_effect false m m.
Proof.
  split; [reflexivity |]. split; [auto | discriminate].
Qed.

Lemma SetTime_effect (s : string) (m m' : monitor_t) (b : bool) :
  SetTime s m = (b, m') -> command_effect b m m'.
Proof.
  unfold SetTime. destruct (sscanf_clock s) as [scan_res c].
  destruct (scan_res =? VALID_TIME_SCAN);
    [| intros [= <- <-]; apply command_effect_refl].
  destruct (systime_SetTime c (time m)) as [ok t].
  destruct ok; [| intros [= <- <-]; apply command_effect_refl].
  intros [= <- <-].
  apply (command_effect_puts (sprintf_clock c) [(" " ++ NL)%string]);
    [reflexivity |].
  cbn [UART0_puts uart set_time]. now rewrite <- app_assoc.
Qed.

Lemma SetDate_effect (s : string) (m m' : monitor_t) (b : bool) :
  SetDate s m = Ok (b, m') -> command_effect b m m'.
Proof.
  unfold SetDate. destruct (sscanf_date s) as [scan_res [[d ms] y]].
  destruct (FindMonthValue ms) as [mv | |]; cbn [mbind result_bind];
    try discriminate.
  destruct (scan_res =? VALID_DATE_SCAN);
    [| intros [= <- <-]; apply command_effect_refl].
  destruct (systime_SetDate _ (time m)) as [[ok t] | |];
    cbn [mbind result_bind fst snd]; try discriminate.
  destruct ok; [| intros [= <- <-]; apply command_effect_refl].
  destruct (index MONTHS _) as [name | |]; cbn [mbind result_bind];
    try discriminate.
  intros [= <- <-].
  eapply (command_effect_puts _ [(" " ++ NL)%string]); [reflexivity |].
  cbn [UART0_puts uart set_time]. now rewrite <- app_assoc.
Qed.

Lemma SetAlarm_effect (s : string) (m m' : monitor_t) (b : bool) :
  SetAlarm s m = (b, m') -> command_effect b m m'.
Proof.
  unfold SetAlarm. destruct (sscanf_clock s) as [scan_res c].
  destruct (scan_res =? VALID_ALARM_SCAN);
    [| intros [= <- <-]; apply command_effect_refl].
  cbn [systime_SetAlarm]. intros [= <- <-].
  eapply (command_effect_puts "Alarm at " [_; _]); [reflexivity |].
  cbn [UART0_puts uart set_time]. now rewrite <- !app_assoc.
Qed.

Lemma QueryCheck_effect (m m' : monitor_t) (b : bool) :
  QueryCheck m = Ok (b, m') ->
  cursor m' = cursor m /\ entry_length m' = entry_length m /\
  (exists i,
     store (data (buffer (query m))) i NUL = Ok (data (buffer (query m'))) /\
     (0 <= entry_length m -> 0 <= i <= entry_length m + 1)) /\
  (b = false -> time m' = time m /\ uart m' = uart m) /\
  (b = true -> exists out, out <> [] /\ uart m' = (uart m ++ out)%list).
Proof.
  unfold QueryCheck. cbv zeta.
  set (d := data (buffer (query m))).
  set (L := entry_ptr (query m)).
  destruct (scan_while is_space d _ 0) as [i1 | |] eqn:H1;
    cbn [mbind result_bind]; try discriminate.
  destruct (scan_while not_space d _ i1) as [i2 | |] eqn:H2;
    cbn [mbind result_bind]; try discriminate.
  destruct (store d i2 NUL) as [d' | |] eqn:Hst;
    cbn [mbind result_bind]; try discriminate.
  destruct (scan_while is_space d' _ (i2 + 1)) as [i3 | |] eqn:H3;
    cbn [mbind result_bind]; try discriminate.
  destruct (cstr_at d' i1) as [kw | |]; cbn [mbind result_bind];
    try discriminate.
  apply scan_while_bound in H1, H2.
  assert (Hi2 : 0 <= L -> 0 <= i2 <= L + 1) by lia.
  set (m1 := set_data d' m).
  assert (Hfin : forall b0 m0, command_effect b0 m1 m0 ->
            (b0, m0) = (b, m') ->
            cursor m' = cursor m /\ entry_length m' = entry_length m /\
            (exists i, store d i NUL = Ok (data (buffer (query m'))) /\
                       (0 <= entry_length m -> 0 <= i <= entry_length m + 1)) /\
            (b = false -> time m' = time m /\ uart m' = uart m) /\
            (b = true -> exists out, out <> [] /\ uart m' = (uart m ++ out)%list)).
  { intros b0 m0 (Hq & Hf & Ht) [= -> ->].
    unfold cursor, entry_length. rewrite Hq.
    cbn [m1 set_data set_query query buffer wr_ptr entry_ptr data].
    repeat split; try reflexivity.
    - exists i2. split; [exact Hst | exact Hi2].
    - now apply Hf.
    - now apply Hf.
    - exact Ht. }
  destruct (String.eqb kw TIME_QUERY).
  { destruct (i3 <? L).
    - destruct (cstr_at d' i3) as [s | |]; cbn [mbind result_bind];
        try discriminate.
      destruct (SetTime s m1) as [b0 m0] eqn:E. intros [= <- <-].
      apply (Hfin b0 m0); [now apply (SetTime_effect s) | reflexivity].
    - intros [= <- <-]. eapply Hfin; [| reflexivity].
      eapply (command_effect_puts _ [_]); [reflexivity |].
      unfold DisplayTime. cbn [UART0_puts uart]. now rewrite <- app_assoc. }
  destruct (String.eqb kw DATE_QUERY).
  { destruct (i3 <? L).
    - destruct (cstr_at d' i3) as [s | |]; cbn [mbind result_bind];
        try discriminate.
      intros E. destruct (SetDate s m1) as [[b0 m0] | |] eqn:E';
        try discriminate.
      injection E as <- <-.
      apply (Hfin b0 m0); [now apply (SetDate_effect s) | reflexivity].
    - unfold DisplayDate.
      destruct (index MONTHS _) as [name | |]; cbn [mbind result_bind];
        try discriminate.
      intros [= <- <-]. eapply Hfin; [| reflexivity].
      eapply (command_effect_puts _ [_]); [reflexivity |].
      cbn [UART0_puts uart]. now rewrite <- app_assoc. }
  destruct (String.eqb kw ALARM_QUERY).
  { destruct (i3 <? L).
    - destruct (cstr_at d' i3) as [s | |]; cbn [mbind result_bind];
        try discriminate.
      destruct (SetAlarm s m1) as [b0 m0] eqn:E. intros [= <- <-].
      apply (Hfin b0 m0); [now apply (SetAlarm_effect s) | reflexivity].
    - intros [= <- <-]. eapply Hfin; [| reflexivity].
      eapply (command_effect_puts _ []); reflexivity. }
  intros [= <- <-]. apply (Hfin false m1); [| reflexivity].
  apply command_effect_refl.
Qed.

(** X12. Whatever the buffer holds, a completed [QueryCheck] never moves
    the cursor or the entry length and changes the storage only by writing
    one NUL, at an index no greater than the entry length plus one.  When
    it reports an invalid query, the time, the date, the alarm and the
    output are exactly as before; when it reports a valid one, it has
    printed at least one string. *)
Theorem QueryCheck_reject_changes_nothing (m m' : monitor_t) (b : bool) :
  QueryCheck m = Ok (b, m') ->
  cursor m' = cursor m /\ entry_length m' = entry_length m /\
  (exists i,
     store (data (buffer (query m))) i NUL = Ok (data (buffer (query m'))) /\
     (0 <= entry_length m -> 0 <= i <= entry_length m + 1)) /\
  (b = false -> time m' = time m /\ uart m' = uart m) /\
  (b = true -> exists out, out <> [] /\ uart m' = (uart m ++ out)%list).
Proof. apply QueryCheck_effect. Qed.

(** X13. A completed commit (CR or LF) consumes exactly that byte, resets
    the cursor and the entry length to zero and ends its output with the
    prompt.  If the line is not a valid query the engine is unchanged and
    the output grows by exactly the error marker and the prompt; if it is
    valid, the answer comes before the prompt and no error marker is
    printed. *)
Theorem commit_resets_and_prompts (c : ascii) (rest rx' : rx_queue)
    (m m' : monitor_t) :
  c = CR \/ c = LF ->
  QueryHandler_Update (c :: rest) m = Ok (rx', m') ->
  rx' = rest /\ cursor m' = 0 /\ entry_length m' = 0 /\
  exists (valid : bool) (mq : monitor_t),
    QueryCheck m = Ok (valid, mq) /\
    time m' = time mq /\
    (valid = false ->
       time m' = time m /\
       uart m' = (uart m ++ [("? " ++ NL)%string; "> "])%list) /\
    (valid = true ->
       exists out, out <> [] /\ uart m' = (uart m ++ out ++ ["> "])%list).
Proof.
  intros Hc. unfold QueryHandler_Update.
  assert (Hb1 : Ascii.eqb c BS || Ascii.eqb c DEL = false)
    by (destruct Hc as [-> | ->]; reflexivity).
  assert (Hb2 : Ascii.eqb c CR || Ascii.eqb c LF = true)
    by (destruct Hc as [-> | ->]; reflexivity).
  rewrite Hb1, Hb2.
  destruct (QueryCheck m) as [[valid mq] | |] eqn:E; cbn [mbind result_bind];
    try discriminate.
  intros [= <- <-].
  destruct (QueryCheck_effect m mq valid E) as (_ & _ & _ & Hf & Ht).
  split; [reflexivity |]. split; [reflexivity |]. split; [reflexivity |].
  exists valid, mq. split; [reflexivity |]. cbn [fst snd].
  destruct valid.
  - split; [reflexivity |]. split; [discriminate |]. intros _.
    destruct (Ht eq_refl) as (out & Hne & Hout).
    exists out. split; [exact Hne |].
    cbn [UART0_puts uart set_wr_ptr set_entry_ptr set_query].
    rewrite Hout. now rewrite <- app_assoc.
  - destruct (Hf eq_refl) as (Htime & Huart).
    split; [reflexivity |]. split; [| discriminate]. intros _.
    split; [exact Htime |].
    cbn [UART0_puts uart set_wr_ptr set_entry_ptr set_query].
    rewrite Huart. now rewrite <- app_assoc.
Qed.

Lemma cstr_at_NUL (d : list ascii) (i : Z) :
  0 <= i -> d !! Z.to_nat i = Some NUL -> cstr_at d i = Ok EmptyString.
Proof.
  intros Hi Hd. pose proof (lookup_lt_Some _ _ _ Hd) as Hlt.
  unfold cstr_at.
  destruct (Z.leb_spec 0 i), (Z.ltb_spec i (Z.of_nat (length d))); try lia.
  cbn [andb]. rewrite (drop_S _ _ _ Hd). reflexivity.
Qed.

(** X14. Committing an empty line (entry length 0, storage of at least two
    bytes) is answered as an invalid query: [QueryCheck] returns false
    after writing only its terminator, and the update prints the error
    marker and the prompt, leaving the time, date and alarm unchanged. *)
Theorem empty_line_is_rejected (c : ascii) (rest : rx_queue) (m : monitor_t) :
  c = CR \/ c = LF ->
  entry_length m = 0 ->
  2 <= Z.of_nat (length (data (buffer (query m)))) ->
  (exists mq, QueryCheck m = Ok (false, mq)) /\
  exists m',
    QueryHandler_Update (c :: rest) m = Ok (rest, m') /\
    time m' = time m /\
    cursor m' = 0 /\ entry_length m' = 0 /\
    uart m' = (uart m ++ [("? " ++ NL)%string; "> "])%list.
Proof.
  intros Hc HL Hlen. unfold entry_length in HL.
  assert (Hq : exists mq, QueryCheck m = Ok (false, mq)).
  { unfold QueryCheck. cbv zeta. rewrite HL.
    set (d := data (buffer (query m))) in *.
    change (Z.to_nat (0 + 1 - 0)) with 1%nat. cbn [scan_while].
    destruct (index_in d 0) as (c0 & Hc0 & _); [lia |].
    rewrite Hc0. cbn [mbind result_bind].
    destruct (is_space c0); cbn [scan_while mbind result_bind].
    all: match goal with
         | |- context [scan_while not_space ?d0 (Z.to_nat (0 - ?i1)) ?i1] =>
             replace (Z.to_nat (0 - i1)) with 0%nat by lia;
             cbn [scan_while mbind result_bind];
             assert (Hst : store d0 i1 NUL = Ok (<[Z.to_nat i1 := NUL]> d0))
               by (unfold store;
                   destruct (Z.leb_spec 0 i1),
                     (Z.ltb_spec i1 (Z.of_nat (length d0)));
                   try lia; reflexivity);
             rewrite Hst; cbn [mbind result_bind];
             replace (Z.to_nat (0 - (i1 + 1))) with 0%nat by lia;
             cbn [scan_while mbind result_bind];
             rewrite (cstr_at_NUL _ i1)
               by (try lia; apply list_lookup_insert_eq; lia);
             cbn [mbind result_bind]; eauto
         end. }
  split; [exact Hq |]. destruct Hq as (mq & Hmq).
  destruct (QueryCheck_effect m mq false Hmq) as (_ & _ & _ & Hf & _).
  destruct (Hf eq_refl) as (Htime & Huart).
  unfold QueryHandler_Update.
  assert (Hb1 : Ascii.eqb c BS || Ascii.eqb c DEL = false)
    by (destruct Hc as [-> | ->]; reflexivity).
  assert (Hb2 : Ascii.eqb c CR || Ascii.eqb c LF = true)
    by (destruct Hc as [-> | ->]; reflexivity).
  rewrite Hb1, Hb2, Hmq. cbn [mbind result_bind fst snd].
  eexists. split; [reflexivity |].
  cbn [UART0_puts uart set_wr_ptr set_entry_ptr set_query time].
  unfold cursor, entry_length. cbn [query buffer wr_ptr entry_ptr].
  rewrite Huart, <- app_assoc. repeat split. exact Htime.
Qed.
Lemma cursor_to_end_output (n : nat) (m : monitor_t) :
  uart (cursor_to_end n m) = (uart m ++ replicate n CURSOR_RIGHT)%list /\
  data (buffer (query (cursor_to_end n m))) = data (buffer (query m)) /\
  time (cursor_to_end n m) = time m.
Proof.
  revert m. induction n as [| n IH]; intros m.
  - cbn [cursor_to_end replicate]. rewrite app_nil_r. repeat split.
  - cbn [cursor_to_end]. destruct (IH (set_wr_ptr
                                         (cursor (UART0_puts CURSOR_RIGHT m) + 1)
                                         (UART0_puts CURSOR_RIGHT m)))
      as (Hu & Hd & Ht).
    rewrite Hu, Hd, Ht.
    cbn [set_wr_ptr set_query UART0_puts uart query buffer data time
         replicate].
    rewrite <- app_assoc. repeat split.
Qed.

(** X15. The escape code with letter B (sent by the down-arrow key) sends
    one cursor-up sequence and then moves the cursor to the end of the
    entry, sending one cursor-right sequence per position moved; the final
    cursor is the larger of the old cursor and the entry length.  The code
    with letter A (up-arrow) only sends one cursor-down sequence.  Neither
    changes the entry length, the stored text or the engine. *)
Theorem up_down_arrow_codes (sqbkrt : ascii) (rest : rx_queue) (m : monitor_t) :
  (exists m',
     CursorCodeCheck (sqbkrt :: "B"%char :: rest) m = Ok (rest, m') /\
     cursor m' = Z.max (cursor m) (entry_length m) /\
     entry_length m' = entry_length m /\
     data (buffer (query m')) = data (buffer (query m)) /\
     time m' = time m /\
     uart m' = (uart m ++ CURSOR_UP ::
                  replicate (Z.to_nat (entry_length m - cursor m)) CURSOR_RIGHT)%list) /\
  (exists m',
     CursorCodeCheck (sqbkrt :: "A"%char :: rest) m = Ok (rest, m') /\
     query m' = query m /\ time m' = time m /\
     uart m' = (uart m ++ [CURSOR_DOWN])%list).
Proof.
  split.
  - unfold CursorCodeCheck. cbn [Ascii.eqb Bool.eqb].
    eexists. split; [reflexivity |].
    rewrite cursor_to_end_cursor, cursor_to_end_entry.
    destruct (cursor_to_end_output
                (Z.to_nat (entry_length (UART0_puts CURSOR_UP m)
                           - cursor (UART0_puts CURSOR_UP m)))
                (UART0_puts CURSOR_UP m)) as (Hu & Hd & Ht).
    rewrite Hu, Hd, Ht.
    unfold cursor, entry_length.
    cbn [UART0_puts uart query buffer data time wr_ptr entry_ptr].
    rewrite <- app_assoc. repeat split. lia.
  - unfold CursorCodeCheck. cbn [Ascii.eqb Bool.eqb].
    eexists. split; [reflexivity |]. repeat split.
Qed.

(** X16. After ESC the handler takes the next two bytes without checking
    that the first is a bracket, and a second byte other than A, B, C or D
    is dropped silently: the update consumes all three bytes and changes
    nothing. *)
Theorem unknown_escape_is_swallowed (sqbkrt code : ascii) (rest : rx_queue)
    (m : monitor_t) :
  code <> "A"%char -> code <> "B"%char -> code <> "C"%char -> code <> "D"%char ->
  QueryHandler_Update (ESC :: sqbkrt :: code :: rest) m = Ok (rest, m).
Proof.
  intros HA HB HC HD. unfold QueryHandler_Update.
  cbn [Ascii.eqb Bool.eqb ESC BS DEL CR LF orb andb]. unfold CursorCodeCheck.
  apply Ascii.eqb_neq in HA, HB, HC, HD.
  now rewrite HA, HB, HC, HD.
Qed.

(** X17. Backspace and DEL behave alike.  With the cursor at 0 nothing is
    erased and one space is sent.  Otherwise the cursor and the entry
    length both go down by one and nothing is sent; the stored bytes are
    not moved, so erasing in the middle of a line drops the last byte of
    the entry rather than the byte before the cursor.  The byte is always
    consumed and the engine is never touched. *)
Theorem erase_shortens_entry (c : ascii) (rest : rx_queue) (m : monitor_t) :
  c = BS \/ c = DEL ->
  capacity < 2 ^ 32 ->
  buffer_inv m ->
  exists m',
    QueryHandler_Update (c :: rest) m = Ok (rest, m') /\
    time m' = time m /\
    data (buffer (query m')) = data (buffer (query m)) /\
    (0 < cursor m ->
       cursor m' = cursor m - 1 /\ entry_length m' = entry_length m - 1 /\
       uart m' = uart m) /\
    (cursor m = 0 ->
       query m' = query m /\ uart m' = (uart m ++ [" "%string])%list).
Proof.
  intros Hc Hcap32 (H0 & Hle & Hcap). unfold QueryHandler_Update.
  assert (Hb : Ascii.eqb c BS || Ascii.eqb c DEL = true)
    by (destruct Hc as [-> | ->]; reflexivity).
  rewrite Hb.
  destruct (Z.ltb_spec 0 (cursor m)).
  - eexists. split; [reflexivity |].
    unfold cursor, entry_length in *.
    cbn [set_wr_ptr set_entry_ptr set_query query buffer data wr_ptr
         entry_ptr time uart].
    repeat split; try lia.
    unfold u32. rewrite Z.mod_small; [reflexivity | lia].
  - eexists. split; [reflexivity |]. repeat split; lia.
Qed.

Lemma QueryHandler_Init_inv (t : systime_t) :
  0 <= capacity -> buffer_inv (QueryHandler_Init t).
Proof.
  intros Hcap. unfold buffer_inv, cursor, entry_length. simpl. lia.
Qed.

(** X18. From the state that [QueryHandler_Init] sets up, any number of
    turns of the polling loop over any received bytes keeps
    0 <= cursor <= entry_length <= capacity, whenever the run completes;
    the loop then never returns bytes it did not receive: what is left is
    a suffix of the input. *)
Theorem main_loop_keeps_invariant_from_init (n : nat) (rx_buf rx' : rx_queue)
    (t : systime_t) (m' : monitor_t) :
  0 <= capacity < 2 ^ 32 ->
  main_loop n rx_buf (QueryHandler_Init t) = Ok (rx', m') ->
  buffer_inv m' /\ exists used, rx_buf = (used ++ rx')%list.
Proof.
  intros Hcap Hrun. split.
  - eapply (main_loop_inv n); [lia | | exact Hrun].
    apply QueryHandler_Init_inv. lia.
  - revert Hrun. generalize (QueryHandler_Init t). revert rx_buf.
    induction n as [| n IH]; intros rx_buf m; cbn [main_loop].
    + intros [= <- <-]. exists []. reflexivity.
    + destruct rx_buf as [| c rest]; [apply IH |].
      destruct (QueryHandler_Update (c :: rest) m) as [[rx1 m1] | |] eqn:E;
        cbn [mbind result_bind fst snd]; try discriminate.
      intros Hrun. destruct (IH _ _ Hrun) as (used & Hused).
      assert (Hstep : exists u, (c :: rest) = (u ++ rx1)%list).
      { revert E. unfold QueryHandler_Update.
        destruct (Ascii.eqb c BS || Ascii.eqb c DEL).
        { destruct (0 <? cursor m); intros [= <- <-]; exists [c]; reflexivity. }
        destruct (Ascii.eqb c CR || Ascii.eqb c LF).
        { destruct (QueryCheck m); cbn [mbind result_bind]; try discriminate.
          intros [= <- <-]. exists [c]. reflexivity. }
        destruct (Ascii.eqb c ESC).
        { unfold CursorCodeCheck.
          destruct rest as [| sq [| code rest]]; try discriminate.
          intros E. exists [c; sq; code].
          repeat match type of E with
                 | context [if ?b then _ else _] => destruct b
                 end; injection E as <- <-; reflexivity. }
        destruct (enqueuec_s _ _) as [ok buf].
        intros [= <- <-]. exists [c]. reflexivity. }
      destruct Hstep as (u & Hu). exists (u ++ used)%list.
      rewrite Hu, Hused. now rewrite app_assoc.
Qed.

(** X19. For a valid current time and a valid entered time the arm time
    that [SetAlarm] computes has its hour below 24 and the other fields at
    most one unit above their range (minute <= 60, second <= 60,
    tenth-second <= 10), and read as a tick count it is always the instant
    current time + entered time modulo one day: a sum that lands on a
    threshold is shown unnormalised, never as a different instant. *)
Theorem SetAlarm_arm_time_denotes_sum (a b : clock_t) :
  clock_in_range a -> clock_in_range b ->
  0 <= hour (SetAlarm_arm_time a b) < 24 /\
  0 <= min (SetAlarm_arm_time a b) <= 60 /\
  0 <= sec (SetAlarm_arm_time a b) <= 60 /\
  0 <= t_sec (SetAlarm_arm_time a b) <= 10 /\
  systime_ConvertClock (SetAlarm_arm_time a b) mod TSEC_IN_DAY
    = (systime_ConvertClock a + systime_ConvertClock b) mod TSEC_IN_DAY.
Proof.
  intros Ha Hb.
  rewrite (ConvertClock_value a), (ConvertClock_value b)
    by now apply clock_in_range_wf.
  destruct a as [ha ma sa ta], b as [hb mb sb tb].
  unfold clock_in_range in Ha, Hb. cbn [hour min sec t_sec] in *.
  unfold SetAlarm_arm_time, TSEC_IN_DAY, TSEC_IN_HOUR, TSEC_IN_MIN,
    TSEC_IN_SEC, SEC_IN_MIN, MIN_IN_HOUR, HOUR_IN_DAY.
  cbn [hour min sec t_sec].
  change (10 * 60 * 60 * 24) with 864000.
  assert (Hmod : forall h, 0 <= h mod 24 < 24)
    by (intros h; apply Z.mod_pos_bound; reflexivity).
  repeat first
    [ match goal with
      | |- context [u8 ?x] =>
          rewrite (u8_small x) by (change (2 ^ 8) with 256; lia)
      end
    | match goal with
      | |- context [u8 (?h mod 24)] =>
          rewrite (u8_small (h mod 24))
            by (change (2 ^ 8) with 256; pose proof (Hmod h); lia)
      end
    | match goal with
      | |- context [?c <? ?x] => destruct (Z.ltb_spec c x)
      end ].
  all: cbn [hour min sec t_sec].
  all: match goal with
       | |- context [mk_clock (?h mod 24) ?m ?s ?t] =>
           pose proof (Hmod h) as Hh;
           pose proof (Z.div_mod h 24 ltac:(lia)) as Hq;
           rewrite ConvertClock_value
             by (unfold clock_wf, is_u8; cbn [hour min sec t_sec];
                 change (2 ^ 8) with 256; lia);
           cbn [hour min sec t_sec];
           repeat split; try lia;
           match goal with
           | |- ?l mod 864000 = ?r mod 864000 =>
               replace r with (l + (h / 24) * 864000) by lia;
               symmetry; apply Z.mod_add; lia
           end
       end.
Qed.

Lemma SetAlarm_arm_time_denotes_sum_witness :
  systime_ConvertClock
    (SetAlarm_arm_time (mk_clock 0 0 0 1) (mk_clock 23 59 59 9)) mod TSEC_IN_DAY
  = (systime_ConvertClock (mk_clock 0 0 0 1)
     + systime_ConvertClock (mk_clock 23 59 59 9)) mod TSEC_IN_DAY.
Proof.
  refine (proj2 (proj2 (proj2 (proj2
            (SetAlarm_arm_time_denotes_sum (mk_clock 0 0 0 1)
               (mk_clock 23 59 59 9) _ _)))));
    unfold clock_in_range; simpl; lia.
Defined.

(** X20. When [sscanf] converts four fields that form a valid time, the
    clock shows a valid time, and no field sum (with its incoming carry)
    is exactly 10, 60 or 60, [SetAlarm] returns true, arms the countdown
    with the entered time, and prints the time of day that lies the entered
    time after the current time, wrapped at midnight. *)
Theorem SetAlarm_prints_sum_off_threshold (alarm_str : string) (c : clock_t)
    (m : monitor_t) :
  sscanf_clock alarm_str = (VALID_ALARM_SCAN, c) ->
  clock_in_range c ->
  0 <= counter_value (counter (systick (time m))) < TSEC_IN_DAY ->
  t_sec c + t_sec (systime_GetTime (time m)) <> 10 ->
  sec c + sec (systime_GetTime (time m)) +
    (if 10 <? t_sec c + t_sec (systime_GetTime (time m)) then 1 else 0) <> 60 ->
  min c + min (systime_GetTime (time m)) +
    (if 60 <? sec c + sec (systime_GetTime (time m)) +
              (if 10 <? t_sec c + t_sec (systime_GetTime (time m))
               then 1 else 0)
     then 1 else 0) <> 60 ->
  exists m',
    SetAlarm alarm_str m = (true, m') /\
    countdown (systick (time m'))
      = mk_countdown true (systime_ConvertClock c) (Some cb_Alarm) /\
    uart m' = (uart m ++ ["Alarm at "%string;
                          sprintf_clock
                            (arm_time_expected c (systime_GetTime (time m)));
                          (" " ++ NL)%string])%list.
Proof.
  intros Hscan Hc Hnow Ht Hs Hm.
  set (now := systime_GetTime (time m)) in *.
  assert (Hrange : clock_in_range now).
  { unfold now, systime_GetTime.
    rewrite ConvertTickCounter_fields
      by (unfold TSEC_IN_DAY, TSEC_IN_HOUR, TSEC_IN_MIN, TSEC_IN_SEC,
            SEC_IN_MIN, MIN_IN_HOUR, HOUR_IN_DAY in Hnow; lia).
    unfold clock_in_range, TSEC_IN_DAY, TSEC_IN_HOUR, TSEC_IN_MIN,
      TSEC_IN_SEC, SEC_IN_MIN, MIN_IN_HOUR, HOUR_IN_DAY in *.
    cbn [hour min sec t_sec]. repeat split; Z.div_mod_to_equations; lia. }
  unfold SetAlarm. rewrite Hscan.
  cbn [Z.eqb VALID_ALARM_SCAN VALID_TIME_SCAN Pos.eqb systime_SetAlarm].
  eexists. split; [reflexivity |]. split; [reflexivity |].
  cbn [UART0_puts uart set_time time].
  change (systime_GetTime (set_countdown _ (time m))) with now.
  rewrite (SetAlarm_arm_time_off_threshold c now Hc Hrange Ht Hs Hm).
  now rewrite <- !app_assoc.
Qed.

Section Tokenizer.

Local Open Scope list_scope.

Lemma index_middle {A : Type} (pre : list A) (x : A) (post : list A) :
  index (pre ++ x :: post) (Z.of_nat (length pre)) = Ok x.
Proof.
  unfold index. rewrite length_app. cbn [length].
  destruct (Z.leb_spec 0 (Z.of_nat (length pre))),
    (Z.ltb_spec (Z.of_nat (length pre))
       (Z.of_nat (length pre + S (length post)))); try lia.
  cbn [andb]. rewrite Nat2Z.id, list_lookup_middle by reflexivity.
  reflexivity.
Qed.

Lemma scan_while_segment (p : ascii -> bool) (seg : list ascii) :
  forall (pre post : list ascii) (n : nat),
    Forall (fun c => p c = true) seg ->
    (length seg <= n)%nat ->
    (n = length seg \/ exists c post', post = c :: post' /\ p c = false) ->
    scan_while p (pre ++ seg ++ post) n (Z.of_nat (length pre))
      = Ok (Z.of_nat (length pre + length seg)).
Proof.
  induction seg as [| x seg IH]; intros pre post n Hall Hn Hstop.
  - cbn [app length]. rewrite Nat.add_0_r.
    destruct n as [| n]; [reflexivity |].
    destruct Hstop as [Hn0 | (c & post' & -> & Hc)]; [discriminate |].
    cbn [scan_while]. rewrite index_middle. cbn [mbind result_bind].
    now rewrite Hc.
  - destruct n as [| n]; [cbn [length] in Hn; lia |].
    inversion Hall as [| ? ? Hx Hall']; subst.
    cbn [scan_while]. change ((x :: seg) ++ post) with (x :: (seg ++ post)).
    rewrite index_middle. cbn [mbind result_bind]. rewrite Hx.
    replace (pre ++ x :: seg ++ post) with ((pre ++ [x]) ++ seg ++ post)
      by (now rewrite <- app_assoc).
    replace (Z.of_nat (length pre) + 1) with (Z.of_nat (length (pre ++ [x])))
      by (rewrite length_app; cbn [length]; lia).
    rewrite IH; [| exact Hall' | cbn [length] in Hn; lia |].
    + f_equal. rewrite length_app. cbn [length]. lia.
    + destruct Hstop as [Hn0 | Hc]; [left; cbn [length] in Hn0; lia | now right].
Qed.

Lemma cstr_until_NUL (w rest : list ascii) :
  Forall (fun c => c <> NUL) w ->
  cstr (w ++ NUL :: rest) = Ok (string_of_list_ascii w).
Proof.
  induction w as [| c w IH]; intros Hall.
  - reflexivity.
  - inversion Hall as [| ? ? Hc Hall']; subst.
    cbn [app cstr string_of_list_ascii].
    apply Ascii.eqb_neq in Hc. rewrite Hc, IH by exact Hall'.
    reflexivity.
Qed.

Lemma replicate_SPACE_is_space (n : nat) :
  Forall (fun c => is_space c = true) (replicate n SPACE).
Proof. apply Forall_replicate. reflexivity. Qed.

(** X21. A line that holds only a keyword, with any number of blanks
    before and after it, is handled as the bare keyword: TIME displays the
    time, DATE displays the date, ALARM clears the alarm, and any other
    word is an invalid query.  The keyword may contain no blank and no
    NUL, and the storage must extend at least one byte past the keyword,
    where [QueryCheck] writes its terminator. *)
Theorem QueryCheck_keyword_surrounded_by_blanks (m : monitor_t) (a b : nat)
    (w tail : list ascii) :
  data (buffer (query m))
    = (replicate a SPACE ++ w ++ replicate b SPACE ++ tail)%list ->
  entry_length m = Z.of_nat (a + length w + b) ->
  w <> [] ->
  Forall (fun c => c <> SPACE /\ c <> NUL) w ->
  (0 < b)%nat \/ tail <> [] ->
  let kw := string_of_list_ascii w in
  let m1 := set_data (<[(a + length w)%nat := NUL]> (data (buffer (query m)))) m in
  QueryCheck m =
    if String.eqb kw TIME_QUERY then Ok (true, DisplayTime m1)
    else if String.eqb kw DATE_QUERY then (m' ← DisplayDate m1; Ok (true, m'))
    else if String.eqb kw ALARM_QUERY then
      Ok (true, UART0_puts ("Alarm has been cleared" ++ NL)
                  (set_time (systime_ClearAlarm (time m1)) m1))
    else Ok (false, m1).
Proof.
  intros Hd HL Hw Hall Hroom kw m1. unfold entry_length in HL.
  assert (Hns : Forall (fun c => not_space c = true) w).
  { eapply Forall_impl; [exact Hall |]. intros c (Hc & _).
    unfold not_space. apply Ascii.eqb_neq in Hc. now rewrite Hc. }
  assert (Hnn : Forall (fun c => c <> NUL) w)
    by (eapply Forall_impl; [exact Hall |]; intros c (_ & Hc); exact Hc).
  destruct w as [| w0 w']; [contradiction |].
  assert (Hw0 : is_space w0 = false).
  { inversion Hall as [| ? ? (Hc & _) _]; subst.
    unfold is_space. now apply Ascii.eqb_neq. }
  unfold QueryCheck. cbv zeta. rewrite HL.
  (* leading blanks *)
  set (wl := w0 :: w') in *.
  assert (H1 : scan_while is_space
                 (replicate a SPACE ++ wl ++ replicate b SPACE ++ tail)
                 (Z.to_nat (Z.of_nat (a + length wl + b) + 1 - 0)) 0
               = Ok (Z.of_nat a)).
  { pose proof (scan_while_segment is_space (replicate a SPACE) []
                  (wl ++ replicate b SPACE ++ tail)
                  (Z.to_nat (Z.of_nat (a + length wl + b) + 1 - 0))
                  (replicate_SPACE_is_space a)) as H.
    rewrite length_replicate in H. apply H; [lia |].
    right. exists w0, (w' ++ replicate b SPACE ++ tail).
    split; [reflexivity | exact Hw0]. }
  rewrite Hd, H1. cbn [mbind result_bind].
  (* the keyword *)
  assert (H2 : scan_while not_space
                 (replicate a SPACE ++ wl ++ replicate b SPACE ++ tail)
                 (Z.to_nat (Z.of_nat (a + length wl + b) - Z.of_nat a))
                 (Z.of_nat a)
               = Ok (Z.of_nat (a + length wl))).
  { pose proof (scan_while_segment not_space wl (replicate a SPACE)
                  (replicate b SPACE ++ tail)
                  (Z.to_nat (Z.of_nat (a + length wl + b) - Z.of_nat a))
                  Hns) as H.
    rewrite length_replicate in H. apply H; [lia |].
    destruct b as [| b']; [left; lia |].
    right. exists SPACE, (replicate b' SPACE ++ tail).
    split; reflexivity. }
  rewrite H2. cbn [mbind result_bind].
  (* the terminator *)
  set (rest := (replicate b SPACE ++ tail)%list).
  assert (Hrest : exists r0 rest', rest = r0 :: rest' /\
            exists seg, rest' = (seg ++ (if b is O then tl tail else tail))%list /\
            seg = replicate (b - 1) SPACE).
  { unfold rest. destruct b as [| b'].
    - destruct Hroom as [Hb | Ht]; [lia |].
      destruct tail as [| t0 tail']; [contradiction |].
      exists t0, tail'. split; [reflexivity |]. exists []. split; reflexivity.
    - exists SPACE, (replicate b' SPACE ++ tail)%list.
      split; [reflexivity |]. exists (replicate b' SPACE).
      split; [reflexivity |]. f_equal. lia. }
  destruct Hrest as (r0 & rest' & Hr & seg & Hrest' & Hseg).
  fold rest. rewrite Hr.
  set (d := (replicate a SPACE ++ wl ++ r0 :: rest')%list).
  set (d' := (replicate a SPACE ++ wl ++ NUL :: rest')%list).
  assert (Hins : <[(a + length wl)%nat := NUL]> d = d').
  { unfold d, d'. rewrite !app_assoc.
    replace (a + length wl)%nat
      with (length (replicate a SPACE ++ wl) + 0)%nat
      by (rewrite length_app, length_replicate; lia).
    rewrite insert_app_r. reflexivity. }
  assert (Hst : store d (Z.of_nat (a + length wl)) NUL = Ok d').
  { unfold store. rewrite Nat2Z.id, Hins.
    assert (Hlen : (a + length wl < length d)%nat).
    { unfold d. rewrite !length_app, length_replicate. cbn [length]. lia. }
    destruct (Z.leb_spec 0 (Z.of_nat (a + length wl))),
      (Z.ltb_spec (Z.of_nat (a + length wl)) (Z.of_nat (length d)));
      try lia. reflexivity. }
  rewrite Hst. cbn [mbind result_bind].
  (* trailing blanks *)
  set (post := if b is O then tl tail else tail) in *.
  set (pre := replicate a SPACE ++ wl ++ [NUL]).
  assert (Hd' : d' = pre ++ seg ++ post)
    by (unfold d', pre; rewrite Hrest', <- !app_assoc; reflexivity).
  assert (Hpre : length pre = (a + length wl + 1)%nat)
    by (unfold pre; rewrite !length_app, length_replicate; cbn [length]; lia).
  assert (Hlseg : length seg = (b - 1)%nat)
    by (rewrite Hseg; apply length_replicate).
  assert (H3 : scan_while is_space d'
                 (Z.to_nat (Z.of_nat (a + length wl + b)
                            - (Z.of_nat (a + length wl) + 1)))
                 (Z.of_nat (a + length wl) + 1)
               = Ok (Z.of_nat (length pre + length seg))).
  { rewrite Hd'.
    replace (Z.of_nat (a + length wl) + 1) with (Z.of_nat (length pre)) by lia.
    apply scan_while_segment;
      [rewrite Hseg; apply replicate_SPACE_is_space | lia | left; lia]. }
  rewrite H3. cbn [mbind result_bind].
  assert (Hno : (Z.of_nat (length pre + length seg)
                 <? Z.of_nat (a + length wl + b)) = false)
    by (apply Z.ltb_ge; lia).
  rewrite Hno.
  (* reading the keyword back *)
  assert (Hkw : cstr_at d' (Z.of_nat a) = Ok kw).
  { unfold cstr_at.
    assert (Hlen : (a < length d')%nat)
      by (rewrite Hd', length_app; lia).
    destruct (Z.leb_spec 0 (Z.of_nat a)),
      (Z.ltb_spec (Z.of_nat a) (Z.of_nat (length d'))); try lia.
    cbn [andb]. rewrite Nat2Z.id. unfold d'.
    rewrite drop_app_length' by (symmetry; apply length_replicate).
    apply cstr_until_NUL. exact Hnn. }
  rewrite Hkw. cbn [mbind result_bind].
  assert (Hm1 : set_data d' m = m1).
  { unfold m1. rewrite Hd. fold rest. rewrite Hr. fold d. now rewrite Hins. }
  rewrite Hm1. reflexivity.
Qed.

(** X22. A line that holds a keyword, at least one blank and an argument
    hands the argument to the matching set command: TIME to [SetTime],
    DATE to [SetDate], ALARM to [SetAlarm]; any other keyword is an invalid
    query.  The argument is the C string that starts at its first byte: it
    runs to the next NUL in the storage, wherever the entry ends, so bytes
    left behind the end of the entry by an earlier, longer line are part
    of it. *)
Theorem QueryCheck_keyword_with_argument (m : monitor_t) (a b : nat)
    (w arg tail : list ascii) (g0 : ascii) :
  data (buffer (query m))
    = replicate a SPACE ++ w ++ replicate (S b) SPACE ++
      (g0 :: arg) ++ NUL :: tail ->
  Z.of_nat (a + length w + S b) < entry_length m ->
  w <> [] ->
  Forall (fun c => c <> SPACE /\ c <> NUL) w ->
  g0 <> SPACE ->
  Forall (fun c => c <> NUL) (g0 :: arg) ->
  let kw := string_of_list_ascii w in
  let s := string_of_list_ascii (g0 :: arg) in
  let m1 := set_data (<[(a + length w)%nat := NUL]> (data (buffer (query m)))) m in
  QueryCheck m =
    if String.eqb kw TIME_QUERY then Ok (SetTime s m1)
    else if String.eqb kw DATE_QUERY then SetDate s m1
    else if String.eqb kw ALARM_QUERY then Ok (SetAlarm s m1)
    else Ok (false, m1).
Proof.
  intros Hd HL Hw Hall Hg0 Harg kw s m1. unfold entry_length in HL.
  set (L := entry_ptr (query m)) in *.
  assert (Hns : Forall (fun c => not_space c = true) w).
  { eapply Forall_impl; [exact Hall |]. intros c (Hc & _).
    unfold not_space. apply Ascii.eqb_neq in Hc. now rewrite Hc. }
  assert (Hnn : Forall (fun c => c <> NUL) w)
    by (eapply Forall_impl; [exact Hall |]; intros c (_ & Hc); exact Hc).
  destruct w as [| w0 w']; [contradiction |].
  assert (Hw0 : is_space w0 = false).
  { inversion Hall as [| ? ? (Hc & _) _]; subst.
    unfold is_space. now apply Ascii.eqb_neq. }
  assert (Hg : is_space g0 = false)
    by (unfold is_space; now apply Ascii.eqb_neq).
  set (wl := w0 :: w') in *.
  set (gl := g0 :: arg) in *.
  unfold QueryCheck. cbv zeta. fold L.
  assert (H1 : scan_while is_space
                 (replicate a SPACE ++ wl ++ replicate (S b) SPACE ++
                  gl ++ NUL :: tail)
                 (Z.to_nat (L + 1 - 0)) 0
               = Ok (Z.of_nat a)).
  { pose proof (scan_while_segment is_space (replicate a SPACE) []
                  (wl ++ replicate (S b) SPACE ++ gl ++ NUL :: tail)
                  (Z.to_nat (L + 1 - 0))
                  (replicate_SPACE_is_space a)) as H.
    rewrite length_replicate in H. apply H; [lia |].
    right. exists w0, (w' ++ replicate (S b) SPACE ++ gl ++ NUL :: tail).
    split; [reflexivity | exact Hw0]. }
  rewrite Hd, H1. cbn [mbind result_bind].
  assert (H2 : scan_while not_space
                 (replicate a SPACE ++ wl ++ replicate (S b) SPACE ++
                  gl ++ NUL :: tail)
                 (Z.to_nat (L - Z.of_nat a)) (Z.of_nat a)
               = Ok (Z.of_nat (a + length wl))).
  { pose proof (scan_while_segment not_space wl (replicate a SPACE)
                  (replicate (S b) SPACE ++ gl ++ NUL :: tail)
                  (Z.to_nat (L - Z.of_nat a)) Hns) as H.
    rewrite length_replicate in H. apply H; [lia |].
    right. exists SPACE, (replicate b SPACE ++ gl ++ NUL :: tail).
    split; reflexivity. }
  rewrite H2. cbn [mbind result_bind].
  set (rest' := replicate b SPACE ++ gl ++ NUL :: tail).
  change (replicate (S b) SPACE ++ gl ++ NUL :: tail) with (SPACE :: rest').
  set (d := replicate a SPACE ++ wl ++ SPACE :: rest').
  set (d' := replicate a SPACE ++ wl ++ NUL :: rest').
  assert (Hins : <[(a + length wl)%nat := NUL]> d = d').
  { unfold d, d'. rewrite !app_assoc.
    replace (a + length wl)%nat
      with (length (replicate a SPACE ++ wl) + 0)%nat
      by (rewrite length_app, length_replicate; lia).
    rewrite insert_app_r. reflexivity. }
  assert (Hst : store d (Z.of_nat (a + length wl)) NUL = Ok d').
  { unfold store. rewrite Nat2Z.id, Hins.
    assert (Hlen : (a + length wl < length d)%nat).
    { unfold d. rewrite !length_app, length_replicate. cbn [length]. lia. }
    destruct (Z.leb_spec 0 (Z.of_nat (a + length wl))),
      (Z.ltb_spec (Z.of_nat (a + length wl)) (Z.of_nat (length d)));
      try lia. reflexivity. }
  rewrite Hst. cbn [mbind result_bind].
  set (pre := replicate a SPACE ++ wl ++ [NUL]).
  assert (Hd' : d' = pre ++ replicate b SPACE ++ gl ++ NUL :: tail)
    by (unfold d', pre, rest'; rewrite <- !app_assoc; reflexivity).
  assert (Hpre : length pre = (a + length wl + 1)%nat)
    by (unfold pre; rewrite !length_app, length_replicate; cbn [length]; lia).
  assert (H3 : scan_while is_space d'
                 (Z.to_nat (L - (Z.of_nat (a + length wl) + 1)))
                 (Z.of_nat (a + length wl) + 1)
               = Ok (Z.of_nat (length pre + length (replicate b SPACE)))).
  { rewrite Hd'.
    replace (Z.of_nat (a + length wl) + 1) with (Z.of_nat (length pre)) by lia.
    apply scan_while_segment;
      [apply replicate_SPACE_is_space | rewrite length_replicate; lia |].
    right. exists g0, (arg ++ NUL :: tail). split; [reflexivity | exact Hg]. }
  rewrite H3. cbn [mbind result_bind]. rewrite length_replicate.
  assert (Hyes : (Z.of_nat (length pre + b) <? L) = true)
    by (apply Z.ltb_lt; lia).
  rewrite Hyes.
  assert (Hkw : cstr_at d' (Z.of_nat a) = Ok kw).
  { unfold cstr_at.
    assert (Hlen : (a < length d')%nat)
      by (rewrite Hd', length_app; lia).
    destruct (Z.leb_spec 0 (Z.of_nat a)),
      (Z.ltb_spec (Z.of_nat a) (Z.of_nat (length d'))); try lia.
    cbn [andb]. rewrite Nat2Z.id. unfold d'.
    rewrite drop_app_length' by (symmetry; apply length_replicate).
    apply cstr_until_NUL. exact Hnn. }
  rewrite Hkw. cbn [mbind result_bind].
  assert (Hs : cstr_at d' (Z.of_nat (length pre + b)) = Ok s).
  { unfold cstr_at.
    assert (Hlen : (length pre + b < length d')%nat).
    { rewrite Hd', !length_app, length_replicate. unfold gl.
      cbn [length]. lia. }
    destruct (Z.leb_spec 0 (Z.of_nat (length pre + b))),
      (Z.ltb_spec (Z.of_nat (length pre + b)) (Z.of_nat (length d')));
      try lia.
    cbn [andb]. rewrite Nat2Z.id, Hd', app_assoc.
    rewrite drop_app_length'
      by (rewrite length_app, length_replicate; reflexivity).
    apply cstr_until_NUL. exact Harg. }
  rewrite Hs. cbn [mbind result_bind].
  assert (Hm1 : set_data d' m = m1).
  { unfold m1. rewrite Hd.
    change (replicate (S b) SPACE ++ gl ++ NUL :: tail) with (SPACE :: rest').
    fold d. now rewrite Hins. }
  rewrite Hm1. reflexivity.
Qed.

End Tokenizer.

End QueryHandler.


(** * The claims on concrete commands *)

Lemma unknown_month_never_sets_date_witness :
  (forall name, In name MONTHS ->
     take 3 (list_ascii_of_string "XYZ" ++ [NUL])%list <> list_ascii_of_string name) /\
  FindMonthValue (list_ascii_of_string "XYZ" ++ [NUL])%list = Ok 12 /\
  SetDate (scanned_date 12 "XYZ" 2021) "12-XYZ-2021"
    (QueryHandler_Init 16 systime_init)
  = Ok (false, QueryHandler_Init 16 systime_init).
Proof.
  assert (H : forall name, In name MONTHS ->
     take 3 (list_ascii_of_string "XYZ" ++ [NUL])%list <> list_ascii_of_string name).
  { intros name Hin. unfold MONTHS in Hin. simpl in Hin.
    repeat (destruct Hin as [<- | Hin]; [discriminate |]). contradiction. }
  split; [exact H |].
  pose proof (unknown_month_never_sets_date
                (scanned_date 12 "XYZ" 2021) _ H) as (Hfind & _ & Hset).
  split; [exact Hfind |].
  exact (Hset "12-XYZ-2021" _ _ _ _ eq_refl).
Defined.

Lemma SetAlarm_display_at_carry_threshold_witness :
  uart (snd (SetAlarm (scanned_clock (mk_clock 0 0 0 1)) "00:00:00.1"
               (set_time (set_counter_value 863999 systime_init)
                  (QueryHandler_Init 16 systime_init))))
  = [CLEAR_SCREEN; CURSOR_HOME; "> "; "Alarm at "; "23:59:59.10"; " " ++ NL].
Proof.
  exact (proj2 (proj2 (proj2 (SetAlarm_display_at_carry_threshold
                  (scanned_clock (mk_clock 0 0 0 1)) "00:00:00.1"
                  (set_time (set_counter_value 863999 systime_init)
                     (QueryHandler_Init 16 systime_init))
                  eq_refl eq_refl)))).
Defined.

Lemma SetAlarm_no_range_check_witness :
  fst (SetAlarm (scanned_clock (mk_clock 99 99 99 9)) "99:99:99.9"
         (QueryHandler_Init 16 systime_init)) = true /\
  countdown (systick (time (snd
    (SetAlarm (scanned_clock (mk_clock 99 99 99 9)) "99:99:99.9"
       (QueryHandler_Init 16 systime_init)))))
    = mk_countdown true 3624399 (Some cb_Alarm) /\
  SetTime (scanned_clock (mk_clock 99 99 99 9)) "99:99:99.9"
    (QueryHandler_Init 16 systime_init)
    = (false, QueryHandler_Init 16 systime_init).
Proof.
  pose proof (SetAlarm_no_range_check
                (scanned_clock (mk_clock 99 99 99 9)) "99:99:99.9"
                (mk_clock 99 99 99 9) (QueryHandler_Init 16 systime_init)
                eq_refl) as (Hret & _ & Harm & Htime).
  split; [exact Hret |]. split; [exact Harm |].
  apply Htime.
  - unfold clock_wf, is_u8. simpl. lia.
  - unfold clock_in_range. simpl. lia.
Defined.


Lemma arrow_keys_move_or_compensate_witness :
  exists m',
    CursorCodeCheck ["["%char; "D"%char] (QueryHandler_Init 16 systime_init)
      = Ok ([], m') /\
    cursor m' = 0 /\
    uart m' = [CLEAR_SCREEN; CURSOR_HOME; "> "; CURSOR_RIGHT].
Proof.
  destruct (arrow_keys_move_or_compensate "["%char []
              (QueryHandler_Init 16 systime_init))
    as (_ & m' & Hrun & _ & _ & _ & _ & _ & Hstay).
  assert (Hedge : ~ 0 < cursor (QueryHandler_Init 16 systime_init))
    by (unfold cursor; simpl; lia).
  exists m'. split; [exact Hrun |].
  exact (Hstay Hedge).
Defined.

(** A whole command line through the polling loop: the commit resets both
    indices and the query is answered. *)
Example main_loop_time_query :
  exists m',
    main_loop 16 (scanned_clock (mk_clock 0 0 0 0)) (scanned_date 1 "JAN" 0)
      10 (list_ascii_of_string "  time  " ++ [CR])%list
      (QueryHandler_Init 16 systime_init)
      = Ok ([], m') /\
    cursor m' = 0 /\ entry_length m' = 0 /\
    uart m' = [CLEAR_SCREEN; CURSOR_HOME; "> "; "00:00:00.0";
               (" " ++ NL)%string; "> "].
Proof.
  eexists. split; [vm_compute; reflexivity |].
  repeat split.
Qed.

Lemma SetTime_echo_matches_display_witness :
  exists m',
    SetTime (scanned_clock (mk_clock 7 30 0 5)) "07:30:00.5"
      (QueryHandler_Init 16 systime_init) = (true, m') /\
    systime_GetTime (time m') = mk_clock 7 30 0 5 /\
    uart (DisplayTime m') = (uart m' ++ ["07:30:00.5"; (" " ++ NL)%string])%list.
Proof.
  assert (Hr : clock_in_range (mk_clock 7 30 0 5))
    by (unfold clock_in_range; simpl; lia).
  destruct (SetTime_echo_matches_display
              (scanned_clock (mk_clock 7 30 0 5)) "07:30:00.5"
              (mk_clock 7 30 0 5) (QueryHandler_Init 16 systime_init)
              eq_refl Hr)
    as (m' & Hset & Hget & _ & _ & _ & _ & Hdisp).
  exists m'. split; [exact Hset |]. split; [exact Hget | exact Hdisp].
Defined.

Lemma SetDate_echo_matches_display_witness :
  exists m',
    SetDate (scanned_date 29 "FEB" 2020) "29-FEB-2020"
      (QueryHandler_Init 16 systime_init) = Ok (true, m') /\
    systime_GetDate (time m') = mk_date 2020 (1 + 1) 29 /\
    uart m' = (uart (QueryHandler_Init 16 systime_init)
                 ++ [sprintf_date 29 "FEB" 2020; (" " ++ NL)%string])%list.
Proof.
  assert (Hv : date_valid (mk_date 2020 (1 + 1) 29))
    by (unfold date_valid; simpl; lia).
  destruct (SetDate_echo_matches_display
              (scanned_date 29 "FEB" 2020) "29-FEB-2020" 29 2020 1 "FEB"
              [NUL] (QueryHandler_Init 16 systime_init) eq_refl eq_refl Hv)
    as (m' & Hset & Hget & _ & _ & Hout & _).
  exists m'. split; [exact Hset |]. split; [exact Hget | exact Hout].
Defined.

Lemma set_commands_reject_bad_format_witness :
  SetTime (fun _ => (3, mk_clock 12 0 0 77)) "12:00:00"
    (QueryHandler_Init 16 systime_init)
  = (false, QueryHandler_Init 16 systime_init).
Proof.
  refine (proj1 (proj1 (set_commands_reject_bad_format
                          (fun _ => (3, mk_clock 12 0 0 77))
                          (scanned_date 1 "JAN" 0) "12:00:00"
                          (QueryHandler_Init 16 systime_init)) _)).
  discriminate.
Defined.

Lemma QueryCheck_reject_changes_nothing_witness :
  exists m',
    QueryCheck (scanned_clock (mk_clock 0 0 0 0)) (scanned_date 1 "JAN" 0)
      (QueryHandler_Init 16 systime_init) = Ok (false, m') /\
    time m' = time (QueryHandler_Init 16 systime_init) /\
    uart m' = uart (QueryHandler_Init 16 systime_init).
Proof.
  assert (H : { m' | QueryCheck (scanned_clock (mk_clock 0 0 0 0))
                       (scanned_date 1 "JAN" 0)
                       (QueryHandler_Init 16 systime_init) = Ok (false, m') })
    by (eexists; vm_compute; reflexivity).
  destruct H as (m' & Hq). exists m'. split; [exact Hq |].
  destruct (QueryCheck_reject_changes_nothing _ _ _ _ _ Hq)
    as (_ & _ & _ & Hf & _).
  exact (Hf eq_refl).
Defined.

Lemma commit_resets_and_prompts_witness :
  exists m',
    QueryHandler_Update 16 (scanned_clock (mk_clock 0 0 0 0))
      (scanned_date 1 "JAN" 0) [CR; "t"%char]
      (QueryHandler_Init 16 systime_init) = Ok (["t"%char], m') /\
    cursor m' = 0 /\ entry_length m' = 0.
Proof.
  assert (H : { m' | QueryHandler_Update 16 (scanned_clock (mk_clock 0 0 0 0))
                       (scanned_date 1 "JAN" 0) [CR; "t"%char]
                       (QueryHandler_Init 16 systime_init)
                     = Ok (["t"%char], m') })
    by (eexists; vm_compute; reflexivity).
  destruct H as (m' & Hu). exists m'. split; [exact Hu |].
  destruct (commit_resets_and_prompts _ _ _ CR ["t"%char] ["t"%char] _ m'
              (or_introl eq_refl) Hu) as (_ & Hc & He & _).
  split; [exact Hc | exact He].
Defined.

Lemma empty_line_is_rejected_witness :
  exists m',
    QueryHandler_Update 16 (scanned_clock (mk_clock 0 0 0 0))
      (scanned_date 1 "JAN" 0) [CR] (QueryHandler_Init 16 systime_init)
      = Ok ([], m') /\
    uart m' = (uart (QueryHandler_Init 16 systime_init)
                 ++ [("? " ++ NL)%string; "> "%string])%list.
Proof.
  assert (Hlen : 2 <= Z.of_nat (length (data (buffer (query
                     (QueryHandler_Init 16 systime_init))))))
    by (vm_compute; discriminate).
  destruct (empty_line_is_rejected 16 (scanned_clock (mk_clock 0 0 0 0))
              (scanned_date 1 "JAN" 0) CR [] (QueryHandler_Init 16 systime_init)
              (or_introl eq_refl) eq_refl Hlen)
    as (_ & m' & Hu & _ & _ & _ & Hout).
  exists m'. split; [exact Hu | exact Hout].
Defined.

Lemma unknown_escape_is_swallowed_witness :
  QueryHandler_Update 16 (scanned_clock (mk_clock 0 0 0 0))
    (scanned_date 1 "JAN" 0) [ESC; "O"%char; "P"%char; "t"%char]
    (QueryHandler_Init 16 systime_init)
  = Ok (["t"%char], QueryHandler_Init 16 systime_init).
Proof.
  apply unknown_escape_is_swallowed; discriminate.
Defined.

Lemma erase_shortens_entry_witness :
  exists m',
    QueryHandler_Update 16 (scanned_clock (mk_clock 0 0 0 0))
      (scanned_date 1 "JAN" 0) [BS] (QueryHandler_Init 16 systime_init)
      = Ok ([], m') /\
    query m' = query (QueryHandler_Init 16 systime_init) /\
    uart m' = (uart (QueryHandler_Init 16 systime_init) ++ [" "%string])%list.
Proof.
  assert (Hcap : 16 < 2 ^ 32) by reflexivity.
  assert (Hinv : buffer_inv 16 (QueryHandler_Init 16 systime_init))
    by (unfold buffer_inv, cursor, entry_length; simpl; lia).
  destruct (erase_shortens_entry 16 (scanned_clock (mk_clock 0 0 0 0))
              (scanned_date 1 "JAN" 0) BS [] (QueryHandler_Init 16 systime_init)
              (or_introl eq_refl) Hcap Hinv)
    as (m' & Hu & _ & _ & _ & Hzero).
  exists m'. split; [exact Hu |]. exact (Hzero eq_refl).
Defined.

Lemma main_loop_keeps_invariant_from_init_witness :
  exists rx' m',
    main_loop 16 (scanned_clock (mk_clock 0 0 0 0)) (scanned_date 1 "JAN" 0)
      2 (list_ascii_of_string "date") (QueryHandler_Init 16 systime_init)
      = Ok (rx', m') /\
    buffer_inv 16 m'.
Proof.
  assert (H : { r | main_loop 16 (scanned_clock (mk_clock 0 0 0 0))
                      (scanned_date 1 "JAN" 0) 2 (list_ascii_of_string "date")
                      (QueryHandler_Init 16 systime_init) = Ok r })
    by (eexists; vm_compute; reflexivity).
  destruct H as ((rx' & m') & Hrun). exists rx', m'. split; [exact Hrun |].
  refine (proj1 (main_loop_keeps_invariant_from_init 16 _ _ 2 _ rx'
                   systime_init m' _ Hrun)).
  split; [discriminate | reflexivity].
Defined.

Lemma SetAlarm_prints_sum_off_threshold_witness :
  exists m',
    SetAlarm (scanned_clock (mk_clock 1 30 0 5)) "01:30:00.5"
      (QueryHandler_Init 16 systime_init) = (true, m') /\
    uart m' = (uart (QueryHandler_Init 16 systime_init)
                 ++ ["Alarm at "%string; "01:30:00.5"%string;
                     (" " ++ NL)%string])%list.
Proof.
  destruct (SetAlarm_prints_sum_off_threshold
              (scanned_clock (mk_clock 1 30 0 5)) (scanned_date 1 "JAN" 0)
              "01:30:00.5" (mk_clock 1 30 0 5)
              (QueryHandler_Init 16 systime_init) eq_refl)
    as (m' & Hset & _ & Hout);
    try (vm_compute; discriminate).
  - unfold clock_in_range. simpl. lia.
  - split; [discriminate | reflexivity].
  - exists m'. split; [exact Hset | exact Hout].
Defined.

Lemma QueryCheck_keyword_surrounded_by_blanks_witness :
  QueryCheck (scanned_clock (mk_clock 0 0 0 0)) (scanned_date 1 "JAN" 0)
    (mk_monitor systime_init
       (mk_query (mk_buffer (list_ascii_of_string "  TIME  " ++ replicate 8 NUL)%list 8) 8)
       [])
  = Ok (true,
        DisplayTime
          (mk_monitor systime_init
             (mk_query (mk_buffer (list_ascii_of_string "  TIME" ++ NUL ::
                                   " "%char :: replicate 8 NUL)%list 8) 8)
             [])).
Proof.
  refine (QueryCheck_keyword_surrounded_by_blanks
            (scanned_clock (mk_clock 0 0 0 0)) (scanned_date 1 "JAN" 0)
            (mk_monitor systime_init
               (mk_query (mk_buffer (list_ascii_of_string "  TIME  "
                                     ++ replicate 8 NUL)%list 8) 8) [])
            2 2 (list_ascii_of_string "TIME") (replicate 8 NUL)
            eq_refl eq_refl _ _ _).
  - discriminate.
  - repeat constructor; discriminate.
  - left. repeat constructor.
Defined.

Lemma QueryCheck_keyword_with_argument_witness :
  QueryCheck (scanned_clock (mk_clock 0 0 0 1)) (scanned_date 1 "JAN" 0)
    (mk_monitor systime_init
       (mk_query (mk_buffer (list_ascii_of_string "ALARM 00:00:00.1"
                             ++ replicate 4 NUL)%list 16) 16)
       [])
  = Ok (SetAlarm (scanned_clock (mk_clock 0 0 0 1)) "00:00:00.1"
          (mk_monitor systime_init
             (mk_query (mk_buffer (list_ascii_of_string "ALARM" ++ NUL ::
                                   list_ascii_of_string "00:00:00.1"
                                   ++ replicate 4 NUL)%list 16) 16)
             [])).
Proof.
  refine (QueryCheck_keyword_with_argument
            (scanned_clock (mk_clock 0 0 0 1)) (scanned_date 1 "JAN" 0)
            (mk_monitor systime_init
               (mk_query (mk_buffer (list_ascii_of_string "ALARM 00:00:00.1"
                                     ++ replicate 4 NUL)%list 16) 16) [])
            0 0 (list_ascii_of_string "ALARM")
            (list_ascii_of_string "0:00:00.1") (replicate 3 NUL) "0"%char
            eq_refl _ _ _ _ _).
  - reflexivity.
  - discriminate.
  - repeat constructor; discriminate.
  - discriminate.
  - repeat constructor; discriminate.
Defined.

